(** * de-ghoster: the match-scoring engine of [src/services/job_matcher.py]

    A shallow embedding of [JobMatcher] and of the records of
    [src/models/data_models.py].

    Conventions of the embedding.
    - A Python [float] is an exact rational ([Q]); rounding is not modelled.
      A Python [int] is a [Z]; [int * float] injects the integer.
    - A Python [str] is a [string] of ASCII characters; [lower()] folds
      [A-Z], [strip()] trims the ASCII white space Python trims.
    - A call that may raise returns an [outcome]: a value, or the message
      [str(e)] of the exception.
    - [np.std(xs) > t] (population standard deviation, a square root) is
      decided on the variance, [t*t < var xs]; the equivalence over the
      reals is [std_exceeds_real].
    - The TF-IDF vectorizer and the cosine of scikit-learn, and the LLM
      chain, are external: they are parameters of the development. *)

From Stdlib Require Import ZArith QArith Qminmax Qreals Reals Lra Lqa Lia.
From Stdlib Require Import List String Ascii Bool.
Import ListNotations.

Local Open Scope Q_scope.

(* ------------------------------------------------------------------ *)
(** ** Python primitives *)

Module Py.

(** The result of a call: [return v] or [raise e], [e] kept as [str(e)]. *)
Inductive outcome (A : Type) : Type :=
| Returned (v : A)
| Raised (msg : string).

Arguments Returned {A} v.
Arguments Raised {A} msg.

Definition bind {A B} (c : outcome A) (k : A -> outcome B) : outcome B :=
  match c with
  | Returned v => k v
  | Raised msg => Raised msg
  end.

(** [a < b] and [a <= b] on floats, as booleans. *)
Definition Qltb (a b : Q) : bool := negb (Qle_bool b a).
Definition Qleb (a b : Q) : bool := Qle_bool a b.

(** The builtin [min(a, b)]: keeps [a] unless [b < a]. *)
Definition min (a b : Q) : Q := if Qltb b a then b else a.

(** The builtin [max(a, b)]: keeps [a] unless [b > a]. *)
Definition max (a b : Q) : Q := if Qltb a b then b else a.

(** [a / b] on two ints: a float, or [ZeroDivisionError]. *)
Definition truediv (a b : Z) : outcome Q :=
  if (b =? 0)%Z then Raised "division by zero"
  else Returned (inject_Z a / inject_Z b).

(** [int(x)] on a float truncates toward zero. *)
Definition int (x : Q) : Z := Z.quot (Qnum x) (Zpos (Qden x)).

(** [str(n)] on an int. *)
Fixpoint digits (fuel : nat) (n : N) (acc : string) : string :=
  match fuel with
  | O => acc
  | S fuel' =>
      let d := ascii_of_N (48 + N.modulo n 10) in
      let q := N.div n 10 in
      if (q =? 0)%N then String d acc else digits fuel' q (String d acc)
  end.

Definition str_of_int (n : Z) : string :=
  let body := digits (S (N.to_nat (N.log2 (Z.abs_N n)))) (Z.abs_N n) EmptyString in
  if (n <? 0)%Z then String "-"%char body else body.

(** [c.lower()] on one character. *)
Definition lower_char (c : ascii) : ascii :=
  let n := N_of_ascii c in
  if ((65 <=? n) && (n <=? 90))%N then ascii_of_N (n + 32) else c.

(** [s.lower()]. *)
Fixpoint lower (s : string) : string :=
  match s with
  | EmptyString => EmptyString
  | String c r => String (lower_char c) (lower r)
  end.

(** The characters [str.strip()] removes. *)
Definition is_space (c : ascii) : bool :=
  let n := N_of_ascii c in
  ((9 <=? n) && (n <=? 13) || (28 <=? n) && (n <=? 32))%N.

Fixpoint lstrip (s : string) : string :=
  match s with
  | EmptyString => EmptyString
  | String c r => if is_space c then lstrip r else s
  end.

Fixpoint rstrip (s : string) : string :=
  match s with
  | EmptyString => EmptyString
  | String c r =>
      match rstrip r with
      | EmptyString => if is_space c then EmptyString else String c EmptyString
      | r' => String c r'
      end
  end.

(** [s.strip()]. *)
Definition strip (s : string) : string := rstrip (lstrip s).

(** [needle in hay] on strings. *)
Fixpoint isin (needle hay : string) : bool :=
  if String.prefix needle hay then true
  else match hay with
       | EmptyString => false
       | String _ rest => isin needle rest
       end.

(** [sep.join(items)]. *)
Fixpoint join (sep : string) (items : list string) : string :=
  match items with
  | [] => EmptyString
  | [x] => x
  | x :: rest => (x ++ sep ++ join sep rest)%string
  end.

(** Truthiness of a [str] and of a [list]. *)
Definition truthy_str (s : string) : bool :=
  match s with EmptyString => false | _ => true end.

Definition truthy_list {A} (l : list A) : bool :=
  match l with [] => false | _ => true end.

(** [len(l)] as an int. *)
Definition len {A} (l : list A) : Z := Z.of_nat (List.length l).

(** [any(p(k) for k in keywords)]. *)
Definition any {A} (p : A -> bool) (l : list A) : bool := existsb p l.

(** Population variance of a list of floats, the square of [np.std]. *)
Definition mean (xs : list Q) : Q :=
  fold_right Qplus 0 xs / inject_Z (len xs).

Definition var (xs : list Q) : Q :=
  let m := mean xs in
  mean (map (fun x => (x - m) * (x - m)) xs).

(** [np.std(xs) > t], for a threshold [t >= 0]. *)
Definition std_exceeds (xs : list Q) (t : Q) : bool := Qltb (t * t) (var xs).

End Py.

Import Py.

(* ------------------------------------------------------------------ *)
(** ** Data model ([src/models/data_models.py]) *)

Inductive RecommendationStatus : Type := APPLY | SKIP | MAYBE.

Module CVData.
Record t : Type := mk {
  id : string;
  name : string;
  content : string;
  skills : list string;
  experience_years : Z;
  education : list string;
  certifications : list string;
  job_titles : list string;
  industries : list string
}.
End CVData.

Module JobPosting.
Record t : Type := mk {
  id : string;
  url : string;
  title : string;
  company : string;
  location : string;
  description : string;
  requirements : list string;
  skills_required : list string;
  experience_required : Z;
  industry : option string
}.
End JobPosting.

Module MatchScore.
Record t : Type := mk {
  qualification_score : Q;
  competition_score : Q;
  strategic_score : Q;
  overall_score : Q;
  confidence : Q
}.

(** [Field(ge=0, le=100)]. *)
Definition in_range (x : Q) : bool := Qleb 0 x && Qleb x 100.

(** The constructor of the pydantic model: it validates every field and
    raises [ValidationError] when one is out of range. *)
Definition validated (q c s o conf : Q) : outcome t :=
  if in_range q && in_range c && in_range s && in_range o && in_range conf
  then Returned (mk q c s o conf)
  else Raised "validation error for MatchScore".
End MatchScore.

(** The dictionary the semantic analysis yields; a key may be absent. *)
Module AnalysisData.
Record t : Type := mk {
  qualification_analysis : option string;
  competition_analysis : option string;
  strategic_analysis : option string;
  key_matches : option (list string);
  gaps : option (list string);
  reasoning : option string;
  confidence_factors : option (list string)
}.

(** [d.get(key, default)]. *)
Definition get {A} (field : option A) (default : A) : A :=
  match field with Some v => v | None => default end.
End AnalysisData.

(** The [details] dictionaries of the three scorers. *)
Module QualDetails.
Record t : Type := mk {
  skill_similarity : Q;
  experience_match : Q;
  education_bonus : Q;
  certification_bonus : Q;
  base_score : Q;
  bonus_score : Q
}.
End QualDetails.

Module CompDetails.
Record t : Type := mk {
  base_competition : Q;
  overqualification_penalty : Q;
  unique_skills_bonus : Q;
  industry_experience_bonus : Q;
  leadership_bonus : Q
}.
End CompDetails.

Module StratDetails.
Record t : Type := mk {
  base_strategic : Q;
  career_growth_potential : Q;
  skill_development_bonus : Q;
  company_size_fit : Q;
  current_level : Z;
  target_level : Z
}.
End StratDetails.

Module Metadata.
Record t : Type := mk {
  qualification_details : QualDetails.t;
  competition_details : CompDetails.t;
  strategic_details : StratDetails.t;
  analysis_data : AnalysisData.t
}.
End Metadata.

Module JobAnalysis.
Record t : Type := mk {
  id : string;
  cv_id : string;
  job_id : string;
  match_score : MatchScore.t;
  recommendation : RecommendationStatus;
  reasoning : string;
  key_matches : list string;
  gaps : list string;
  metadata : Metadata.t
}.
End JobAnalysis.

(** The keyword arguments of [self.chain.run(...)]. *)
Module ChainInputs.
Record t : Type := mk {
  cv_skills : string;
  cv_experience : Z;
  cv_education : string;
  cv_roles : string;
  cv_industries : string;
  job_title : string;
  job_skills : string;
  job_experience : Z;
  job_requirements : string;
  job_industry : string
}.
End ChainInputs.

(* ------------------------------------------------------------------ *)
(** ** The matcher ([src/services/job_matcher.py], class [JobMatcher]) *)

Module JobMatcher.

Section Collaborators.

(** [cosine_similarity] of the two rows of
    [self.vectorizer.fit_transform([cv_text, job_text])]: the similarity,
    or the exception scikit-learn raised (an empty vocabulary, say). *)
Variable tfidf_cosine : string -> string -> outcome Q.

(** [self.chain.run(...)]: the parsed analysis, or the exception raised. *)
Variable chain_run : ChainInputs.t -> outcome AnalysisData.t.

(** The inner loop of [_basic_skill_match]: the first candidate skill that
    overlaps [job_skill] ends it. *)
Fixpoint overlaps_some (job_skill : string) (cv_skills_lower : list string) : bool :=
  match cv_skills_lower with
  | [] => false
  | cv_skill :: rest =>
      if isin job_skill cv_skill || isin cv_skill job_skill then true
      else overlaps_some job_skill rest
  end.

(** The outer loop of [_basic_skill_match], [matches] being its counter. *)
Fixpoint count_matches (job_skills_lower cv_skills_lower : list string)
  (matches : Z) : Z :=
  match job_skills_lower with
  | [] => matches
  | job_skill :: rest =>
      count_matches rest cv_skills_lower
        (if overlaps_some job_skill cv_skills_lower then matches + 1 else matches)%Z
  end.

Definition _basic_skill_match (cv_skills job_skills : list string) : outcome Q :=
  let cv_skills_lower := map (fun skill => strip (lower skill)) cv_skills in
  let job_skills_lower := map (fun skill => strip (lower skill)) job_skills in
  let matches := count_matches job_skills_lower cv_skills_lower 0 in
  if truthy_list job_skills_lower
  then truediv matches (len job_skills_lower)
  else Returned 0.

Definition _calculate_skill_similarity (cv_skills job_skills : list string) : outcome Q :=
  if negb (truthy_list cv_skills) || negb (truthy_list job_skills) then Returned 0
  else
    let cv_skills_text := join " " cv_skills in
    let job_skills_text := join " " job_skills in
    match tfidf_cosine cv_skills_text job_skills_text with
    | Returned similarity => Returned similarity
    | Raised _ => _basic_skill_match cv_skills job_skills
    end.

Definition _calculate_experience_match (cv_experience job_experience : Z) : Q :=
  if (job_experience =? 0)%Z then 1
  else if (cv_experience >=? job_experience)%Z then 1
  else if Qleb (inject_Z job_experience * 0.8) (inject_Z cv_experience) then 0.8
  else if Qleb (inject_Z job_experience * 0.6) (inject_Z cv_experience) then 0.6
  else if Qleb (inject_Z job_experience * 0.4) (inject_Z cv_experience) then 0.4
  else 0.2.

Definition education_keywords : list string :=
  ["bachelor"; "master"; "phd"; "degree"]%string.

(** The inner loop over [job.skills_required] for one certification. *)
Fixpoint cert_is_relevant (cert : string) (skills_required : list string) : bool :=
  match skills_required with
  | [] => false
  | skill :: rest =>
      if isin (lower skill) (lower cert) then true
      else cert_is_relevant cert rest
  end.

(** The loop over [cv.certifications], [relevant_certs] being its counter. *)
Fixpoint count_relevant_certs (certs skills_required : list string)
  (relevant_certs : Z) : Z :=
  match certs with
  | [] => relevant_certs
  | cert :: rest =>
      count_relevant_certs rest skills_required
        (if cert_is_relevant cert skills_required
         then relevant_certs + 1 else relevant_certs)%Z
  end.

Definition _calculate_qualification_score (cv : CVData.t) (job : JobPosting.t)
  : outcome (Q * QualDetails.t) :=
  bind (_calculate_skill_similarity (CVData.skills cv) (JobPosting.skills_required job))
    (fun skill_similarity =>
  let experience_match :=
    _calculate_experience_match (CVData.experience_years cv)
      (JobPosting.experience_required job) in
  let education_bonus :=
    if truthy_list (CVData.education cv)
       && any truthy_str
            (filter (fun edu => any (fun keyword => isin keyword (lower edu))
                                  education_keywords)
               (CVData.education cv))
    then 0.1 else 0 in
  let certification_bonus :=
    if truthy_list (CVData.certifications cv)
    then
      let relevant_certs :=
        count_relevant_certs (CVData.certifications cv)
          (JobPosting.skills_required job) 0 in
      Py.min 0.1 (inject_Z relevant_certs * 0.05)
    else 0 in
  let base_score := (skill_similarity * 0.6 + experience_match * 0.4) * 100 in
  let bonus_score := (education_bonus + certification_bonus) * 100 in
  let final_score := Py.min 100 (base_score + bonus_score) in
  let details :=
    QualDetails.mk skill_similarity experience_match education_bonus
      certification_bonus base_score bonus_score in
  Returned (final_score, details)).

Definition specialized_skills : list string :=
  ["ai"; "machine learning"; "blockchain"; "quantum"; "cloud architecture"]%string.

Definition leadership_keywords : list string :=
  ["lead"; "manager"; "director"; "senior"; "principal"; "architect"]%string.

(** The loop over [cv.skills], [unique_skills_bonus] being its accumulator. *)
Fixpoint add_unique_skills (skills : list string) (unique_skills_bonus : Q) : Q :=
  match skills with
  | [] => unique_skills_bonus
  | skill :: rest =>
      add_unique_skills rest
        (if any (fun spec => isin spec (lower skill)) specialized_skills
         then unique_skills_bonus + 5 else unique_skills_bonus)
  end.

(** The loop over [cv.industries]; the first overlap ends it. *)
Fixpoint scan_industries (job_industry : string) (cv_industries : list string) : Q :=
  match cv_industries with
  | [] => 0
  | cv_industry :: rest =>
      if isin (lower job_industry) (lower cv_industry)
         || isin (lower cv_industry) (lower job_industry)
      then 15
      else scan_industries job_industry rest
  end.

(** The loop over [cv.job_titles]; the first leadership title ends it. *)
Fixpoint scan_titles (titles : list string) : Q :=
  match titles with
  | [] => 0
  | title :: rest =>
      if any (fun keyword => isin keyword (lower title)) leadership_keywords
      then 10
      else scan_titles rest
  end.

Definition _calculate_competition_score (cv : CVData.t) (job : JobPosting.t)
  : Q * CompDetails.t :=
  let base_competition := 50 in
  let overqualification_penalty :=
    if Qltb (inject_Z (JobPosting.experience_required job) * 1.5)
         (inject_Z (CVData.experience_years cv))
    then Py.min 20
           (inject_Z (CVData.experience_years cv - JobPosting.experience_required job) * 2)
    else 0 in
  let unique_skills_bonus := Py.min 20 (add_unique_skills (CVData.skills cv) 0) in
  let industry_experience_bonus :=
    match JobPosting.industry job with
    | Some job_industry =>
        if truthy_str job_industry && truthy_list (CVData.industries cv)
        then scan_industries job_industry (CVData.industries cv)
        else 0
    | None => 0
    end in
  let leadership_bonus := scan_titles (CVData.job_titles cv) in
  let final_score :=
    base_competition - overqualification_penalty + unique_skills_bonus
    + industry_experience_bonus + leadership_bonus in
  let final_score := Py.max 0 (Py.min 100 final_score) in
  let details :=
    CompDetails.mk base_competition overqualification_penalty unique_skills_bonus
      industry_experience_bonus leadership_bonus in
  (final_score, details).

Definition growth_indicators : list string :=
  ["senior"; "lead"; "principal"; "manager"; "director"]%string.

Definition emerging_skills : list string :=
  ["ai"; "ml"; "cloud"; "devops"; "kubernetes"; "react"; "python"; "aws"]%string.

(** The loop [for i, indicator in enumerate(growth_indicators)], started at
    index [i] with the two levels found so far. *)
Fixpoint scan_levels (indicators : list string) (i : Z)
  (titles : list string) (job_title : string)
  (current_level target_level : Z) : Z * Z :=
  match indicators with
  | [] => (current_level, target_level)
  | indicator :: rest =>
      let current_level :=
        if truthy_list titles
           && any (fun title => isin indicator (lower title)) titles
        then Z.max current_level (i + 1) else current_level in
      let target_level :=
        if isin indicator (lower job_title) then (i + 1)%Z else target_level in
      scan_levels rest (i + 1) titles job_title current_level target_level
  end.

(** [sum(1 for skill in job.skills_required if any(...))]. *)
Fixpoint count_emerging (skills_required : list string) : Z :=
  match skills_required with
  | [] => 0%Z
  | skill :: rest =>
      if any (fun emerging => isin emerging (lower skill)) emerging_skills
      then (1 + count_emerging rest)%Z
      else count_emerging rest
  end.

(** The [company_size_fit] block of [_calculate_strategic_score]. *)
Definition company_size_fit (cv : CVData.t) (job : JobPosting.t) : Q :=
  if isin "startup" (lower (JobPosting.company job))
     || isin "small" (lower (JobPosting.description job))
  then
    if (CVData.experience_years cv <? 5)%Z then 10 else 5
  else if isin "enterprise" (lower (JobPosting.company job))
          || isin "fortune" (lower (JobPosting.description job))
  then
    if (CVData.experience_years cv >? 3)%Z then 10 else 5
  else 5.

Definition _calculate_strategic_score (cv : CVData.t) (job : JobPosting.t)
  (analysis_data : AnalysisData.t) : Q * StratDetails.t :=
  let base_strategic := 60 in
  let '(current_level, target_level) :=
    scan_levels growth_indicators 0 (CVData.job_titles cv) (JobPosting.title job)
      0%Z 0%Z in
  let career_growth_potential :=
    if (target_level >? current_level)%Z then 20
    else if (target_level =? current_level)%Z then 10
    else 0 in
  let job_emerging_skills := count_emerging (JobPosting.skills_required job) in
  let skill_development_bonus :=
    if (job_emerging_skills >? 0)%Z
    then Py.min 15 (inject_Z job_emerging_skills * 3)
    else 0 in
  let company_size_fit := company_size_fit cv job in
  let final_score :=
    base_strategic + career_growth_potential + skill_development_bonus
    + company_size_fit in
  let final_score := Py.max 0 (Py.min 100 final_score) in
  let details :=
    StratDetails.mk base_strategic career_growth_potential skill_development_bonus
      company_size_fit current_level target_level in
  (final_score, details).

Definition _calculate_confidence (qualification_score competition_score
  strategic_score : Q) (analysis_data : AnalysisData.t) : Q :=
  let base_confidence := 70 in
  let base_confidence :=
    if Qltb 80 qualification_score then base_confidence + 15
    else if Qltb 60 qualification_score then base_confidence + 5
    else if Qltb qualification_score 40 then base_confidence - 15
    else base_confidence in
  let base_confidence :=
    if (len (AnalysisData.get (AnalysisData.key_matches analysis_data) []) >? 3)%Z
    then base_confidence + 10 else base_confidence in
  let base_confidence :=
    if (len (AnalysisData.get (AnalysisData.gaps analysis_data) []) >? 2)%Z
    then base_confidence - 10 else base_confidence in
  let base_confidence :=
    if std_exceeds [qualification_score; competition_score; strategic_score] 20
    then base_confidence - 10 else base_confidence in
  Py.max 20 (Py.min 95 base_confidence).

Definition _determine_recommendation (overall_score confidence
  qualification_score : Q) : RecommendationStatus :=
  if Qleb 75 overall_score && Qleb 70 confidence then APPLY
  else if Qleb 60 overall_score && Qleb 60 qualification_score then APPLY
  else if Qleb 45 overall_score && Qleb 60 confidence then MAYBE
  else SKIP.

(** The keyword arguments [analyze_job_match] passes to the chain. *)
Definition chain_inputs (cv : CVData.t) (job : JobPosting.t) : ChainInputs.t :=
  ChainInputs.mk
    (join ", " (CVData.skills cv))
    (CVData.experience_years cv)
    (join ", " (CVData.education cv))
    (join ", " (CVData.job_titles cv))
    (join ", " (CVData.industries cv))
    (JobPosting.title job)
    (join ", " (JobPosting.skills_required job))
    (JobPosting.experience_required job)
    (join ", " (JobPosting.requirements job))
    (match JobPosting.industry job with
     | Some i => if truthy_str i then i else "Not specified"%string
     | None => "Not specified"%string
     end).

(** The dictionary of the [except Exception as e] branch. *)
Definition degraded_analysis (e : string) : AnalysisData.t :=
  AnalysisData.mk
    (Some ("Analysis error: " ++ e)%string)
    (Some "Unable to analyze competition factors"%string)
    (Some "Unable to analyze strategic factors"%string)
    (Some [])
    (Some [])
    (Some ("Analysis failed due to error: " ++ e)%string)
    (Some []).

(** The [try: ... except Exception as e: ...] around the chain. *)
Definition analysis_or_degraded (r : outcome AnalysisData.t) : AnalysisData.t :=
  match r with
  | Returned d => d
  | Raised e => degraded_analysis e
  end.

Definition analyze_job_match (cv : CVData.t) (job : JobPosting.t)
  : outcome JobAnalysis.t :=
  let analysis_data := analysis_or_degraded (chain_run (chain_inputs cv job)) in
  bind (_calculate_qualification_score cv job) (fun '(qualification_score, qual_details) =>
  let '(competition_score, comp_details) := _calculate_competition_score cv job in
  let '(strategic_score, strat_details) :=
    _calculate_strategic_score cv job analysis_data in
  let overall_score :=
    qualification_score * 0.6 + competition_score * 0.25 + strategic_score * 0.15 in
  let confidence :=
    _calculate_confidence qualification_score competition_score strategic_score
      analysis_data in
  let recommendation :=
    _determine_recommendation overall_score confidence qualification_score in
  bind (MatchScore.validated qualification_score competition_score strategic_score
          overall_score confidence) (fun match_score =>
  let analysis_id :=
    ("analysis_" ++ CVData.id cv ++ "_" ++ JobPosting.id job ++ "_"
     ++ str_of_int (int overall_score))%string in
  Returned
    (JobAnalysis.mk analysis_id (CVData.id cv) (JobPosting.id job) match_score
       recommendation
       (AnalysisData.get (AnalysisData.reasoning analysis_data)
          "No reasoning provided"%string)
       (AnalysisData.get (AnalysisData.key_matches analysis_data) [])
       (AnalysisData.get (AnalysisData.gaps analysis_data) [])
       (Metadata.mk qual_details comp_details strat_details analysis_data)))).

End Collaborators.

End JobMatcher.

(* ------------------------------------------------------------------ *)
(** ** The scoring rules as the specification words them *)

Module Spec.

Definition clamp (x lo hi : Q) : Q := Qmax lo (Qmin hi x).

(** [needle] occurs in [hay], letter case ignored. *)
Definition contains_ci (needle hay : string) : bool :=
  isin (lower needle) (lower hay).

(** Number of entries of [l] that satisfy [p]. *)
Definition count {A} (p : A -> bool) (l : list A) : Z :=
  Z.of_nat (List.length (filter p l)).

(** *** Recommendation rule: the first matching rule wins *)

Inductive recommends (overall confidence qualification : Q)
  : RecommendationStatus -> Prop :=
| rule1 :
    75 <= overall /\ 70 <= confidence ->
    recommends overall confidence qualification APPLY
| rule2 :
    ~ (75 <= overall /\ 70 <= confidence) ->
    60 <= overall /\ 60 <= qualification ->
    recommends overall confidence qualification APPLY
| rule3 :
    ~ (75 <= overall /\ 70 <= confidence) ->
    ~ (60 <= overall /\ 60 <= qualification) ->
    45 <= overall /\ 60 <= confidence ->
    recommends overall confidence qualification MAYBE
| rule4 :
    ~ (75 <= overall /\ 70 <= confidence) ->
    ~ (60 <= overall /\ 60 <= qualification) ->
    ~ (45 <= overall /\ 60 <= confidence) ->
    recommends overall confidence qualification SKIP.

(** *** Qualification scorer *)

Definition experienceMatch (candidateYears requiredYears : Z) : Q :=
  if (requiredYears =? 0)%Z || (requiredYears <=? candidateYears)%Z then 1
  else if Qle_bool (0.8 * inject_Z requiredYears) (inject_Z candidateYears) then 0.8
  else if Qle_bool (0.6 * inject_Z requiredYears) (inject_Z candidateYears) then 0.6
  else if Qle_bool (0.4 * inject_Z requiredYears) (inject_Z candidateYears) then 0.4
  else 0.2.

Definition educationBonus (education : list string) : Q :=
  if existsb (fun entry =>
       existsb (fun k => contains_ci k entry)
         ["bachelor"; "master"; "phd"; "degree"]%string) education
  then 10 else 0.

Definition certificationBonus (certifications requiredSkills : list string) : Q :=
  Qmin 10
    (5 * inject_Z (count (fun cert =>
            existsb (fun skill => contains_ci skill cert) requiredSkills)
          certifications)).

Definition qualification (skillSimilarity : Q) (cv : CVData.t) (job : JobPosting.t) : Q :=
  let base :=
    (skillSimilarity * 0.6
     + experienceMatch (CVData.experience_years cv)
         (JobPosting.experience_required job) * 0.4) * 100 in
  Qmin 100
    (base + educationBonus (CVData.education cv)
     + certificationBonus (CVData.certifications cv) (JobPosting.skills_required job)).

(** *** Competition scorer *)

Definition overqualificationPenalty (candidateYears requiredYears : Z) : Q :=
  if Qle_bool (inject_Z candidateYears) (1.5 * inject_Z requiredYears) then 0
  else Qmin 20 (2 * inject_Z (candidateYears - requiredYears)).

Definition uniqueSkillsBonus (skills : list string) : Q :=
  Qmin 20
    (5 * inject_Z (count (fun skill =>
            existsb (fun k => contains_ci k skill)
              ["ai"; "machine learning"; "blockchain"; "quantum";
               "cloud architecture"]%string) skills)).

(** The industry bonus as worded: whenever the job has an industry and it
    overlaps an industry of the candidate. *)
Definition industryBonus (jobIndustry : option string) (industries : list string) : Q :=
  match jobIndustry with
  | Some j =>
      if existsb (fun c => contains_ci j c || contains_ci c j) industries
      then 15 else 0
  | None => 0
  end.

(** The industry bonus the code grants: as above, for an industry that is
    present and not the empty string. *)
Definition industryBonus_nonempty (jobIndustry : option string)
  (industries : list string) : Q :=
  match jobIndustry with
  | Some j =>
      if truthy_str j
         && existsb (fun c => contains_ci j c || contains_ci c j) industries
      then 15 else 0
  | None => 0
  end.

Definition leadershipBonus (titles : list string) : Q :=
  if existsb (fun title =>
       existsb (fun k => contains_ci k title)
         ["lead"; "manager"; "director"; "senior"; "principal"; "architect"]%string)
       titles
  then 10 else 0.

Definition competition_with (industry : option string -> list string -> Q)
  (cv : CVData.t) (job : JobPosting.t) : Q :=
  clamp
    (50
     - overqualificationPenalty (CVData.experience_years cv)
         (JobPosting.experience_required job)
     + uniqueSkillsBonus (CVData.skills cv)
     + industry (JobPosting.industry job) (CVData.industries cv)
     + leadershipBonus (CVData.job_titles cv))
    0 100.

Definition competition := competition_with industryBonus.

Definition competition_nonempty := competition_with industryBonus_nonempty.

(** *** Confidence estimator *)

Definition qualification_adjustment (qual : Q) : Q :=
  if Qltb 80 qual then 15
  else if Qltb 60 qual && Qleb qual 80 then 5
  else if Qltb qual 40 then -15
  else 0.

Definition matches_adjustment (analysis : AnalysisData.t) : Q :=
  if (3 <? len (AnalysisData.get (AnalysisData.key_matches analysis) []))%Z
  then 10 else 0.

Definition gaps_adjustment (analysis : AnalysisData.t) : Q :=
  if (2 <? len (AnalysisData.get (AnalysisData.gaps analysis) []))%Z
  then -10 else 0.

Definition spread_adjustment (qual comp strat : Q) : Q :=
  if std_exceeds [qual; comp; strat] 20 then -10 else 0.

(** The confidence before it is clamped. *)
Definition raw_confidence (qual comp strat : Q) (analysis : AnalysisData.t) : Q :=
  70 + qualification_adjustment qual + matches_adjustment analysis
  + gaps_adjustment analysis + spread_adjustment qual comp strat.

Definition confidence (qual comp strat : Q) (analysis : AnalysisData.t) : Q :=
  clamp (raw_confidence qual comp strat analysis) 20 95.

(** *** Lexical similarity fallback *)

(** The fallback as worded: the fraction of required skills that occur in,
    or contain, some candidate skill, letter case ignored. *)
Definition fallback_fraction (candidateSkills requiredSkills : list string) : Q :=
  inject_Z (count (fun r =>
              existsb (fun c => contains_ci r c || contains_ci c r) candidateSkills)
            requiredSkills)
  / inject_Z (len requiredSkills).

(** The fallback on skills that are also trimmed of surrounding white space. *)
Definition normalise (skill : string) : string := strip (lower skill).

Definition fallback_fraction_trimmed (candidateSkills requiredSkills : list string) : Q :=
  inject_Z (count (fun r =>
              existsb (fun c => isin (normalise r) (normalise c)
                                || isin (normalise c) (normalise r))
                candidateSkills)
            requiredSkills)
  / inject_Z (len requiredSkills).

(** *** Strategic scorer: company-size fit *)

Definition startup_signal (job : JobPosting.t) : bool :=
  contains_ci "startup" (JobPosting.company job)
  || contains_ci "small" (JobPosting.description job).

Definition enterprise_signal (job : JobPosting.t) : bool :=
  contains_ci "enterprise" (JobPosting.company job)
  || contains_ci "fortune" (JobPosting.description job).

(** The sum the strategic scorer clamps, read off its details. *)
Definition strategic_raw (d : StratDetails.t) : Q :=
  StratDetails.base_strategic d + StratDetails.career_growth_potential d
  + StratDetails.skill_development_bonus d + StratDetails.company_size_fit d.

End Spec.

(* ------------------------------------------------------------------ *)
(** ** Sample records *)

Module Samples.

(** A vectorizer that always fails, as scikit-learn does on an empty
    vocabulary. *)
Definition failing_tfidf (_ _ : string) : outcome Q :=
  Raised "empty vocabulary; perhaps the documents only contain stop words".

(** A vectorizer that finds the two texts orthogonal. *)
Definition orthogonal_tfidf (_ _ : string) : outcome Q := Returned 0.

(** A chain that times out. *)
Definition failing_chain (_ : ChainInputs.t) : outcome AnalysisData.t :=
  Raised "Request timed out".

Definition empty_analysis : AnalysisData.t :=
  AnalysisData.mk None None None None None None None.

(** Six years of experience, fintech, a senior title. *)
Definition cv_senior : CVData.t :=
  CVData.mk "cv1" "Ada" "resume text"
    ["Python"; "AWS"; "Docker"]%string 6
    ["BSc degree in Computer Science"]%string
    ["AWS Certified Developer"]%string
    ["Senior Engineer"]%string
    ["Fintech"]%string.

(** One year of experience, no title. *)
Definition cv_junior : CVData.t :=
  CVData.mk "cv2" "Bob" "resume text"
    ["Python"]%string 1 [] [] [] [].

(** Ten years of experience. *)
Definition cv_veteran : CVData.t :=
  CVData.mk "cv3" "Eve" "resume text"
    ["Java"]%string 10 [] [] ["Developer"]%string ["Banking"]%string.

Definition job_fintech : JobPosting.t :=
  JobPosting.mk "job1" "https://example.org/1" "Backend Engineer" "Acme"
    "Remote" "Build payment systems" []
    ["python"; "kubernetes"]%string 5 (Some "fintech"%string).

(** The same posting with the industry left as the empty string. *)
Definition job_blank_industry : JobPosting.t :=
  JobPosting.mk "job2" "https://example.org/2" "Backend Engineer" "Acme"
    "Remote" "Build payment systems" []
    ["python"; "kubernetes"]%string 5 (Some ""%string).

(** A posting that signals both a startup and an enterprise. *)
Definition job_both_signals : JobPosting.t :=
  JobPosting.mk "job3" "https://example.org/3" "Developer"
    "Startup Enterprise Labs" "Remote" "A Fortune 500 spin-off" []
    ["java"]%string 3 None.

(** A director post at a startup asking for five emerging skills. *)
Definition job_director : JobPosting.t :=
  JobPosting.mk "job4" "https://example.org/4" "Engineering Director"
    "Tiny Startup" "Remote" "Lead the team" []
    ["python"; "aws"; "react"; "kubernetes"; "devops"]%string 0 None.

End Samples.

(* ------------------------------------------------------------------ *)
(** ** More string primitives *)

Module PyStr.

(** [len(s)] on a string, as an int. *)
Definition len (s : string) : Z := Z.of_nat (String.length s).

(** [s[:n]] for [n >= 0]. *)
Fixpoint take (n : nat) (s : string) : string :=
  match n, s with
  | O, _ => EmptyString
  | S _, EmptyString => EmptyString
  | S n', String c r => String c (take n' r)
  end.

(** [s[:n]] for any int [n]; a negative [n] counts from the end. *)
Definition slice_to (n : Z) (s : string) : string :=
  if (0 <=? n)%Z then take (Z.to_nat n) s
  else take (Z.to_nat (Z.max 0 (len s + n))) s.

(** [s.split(sep)] on a one-character separator. *)
Fixpoint split (sep : ascii) (s : string) : list string :=
  match s with
  | EmptyString => [EmptyString]
  | String c r =>
      if Ascii.eqb c sep then EmptyString :: split sep r
      else match split sep r with
           | [] => [String c EmptyString]
           | piece :: pieces => String c piece :: pieces
           end
  end.

(** [c in s] for a character [c]. *)
Fixpoint has_char (c : ascii) (s : string) : bool :=
  match s with
  | EmptyString => false
  | String d r => Ascii.eqb c d || has_char c r
  end.

(** [re.sub('[...]', '', s)] for a class of single characters. *)
Fixpoint remove_chars (class : list ascii) (s : string) : string :=
  match s with
  | EmptyString => EmptyString
  | String c r =>
      if existsb (Ascii.eqb c) class then remove_chars class r
      else String c (remove_chars class r)
  end.

(** [re.sub('\s+', ' ', s)]: every maximal run of white space becomes one
    space; [in_run] tells that the previous character was white space. *)
Fixpoint collapse_ws (in_run : bool) (s : string) : string :=
  match s with
  | EmptyString => EmptyString
  | String c r =>
      if is_space c
      then if in_run then collapse_ws true r
           else String " "%char (collapse_ws true r)
      else String c (collapse_ws false r)
  end.

End PyStr.

(* ------------------------------------------------------------------ *)
(** ** The output parser ([job_matcher.py], class [MatchOutputParser])

    The bullet U+2022 is held as the three bytes of its UTF-8 encoding;
    lengths and slices count bytes, which is what Python counts on ASCII
    text. *)

Module MatchOutputParser.

(** The values [current_section] takes once it is set. *)
Inductive section : Type := KEY_MATCHES | GAPS.

Definition newline : ascii := ascii_of_nat 10.

Definition bullet : string :=
  String (ascii_of_nat 226) (String (ascii_of_nat 128)
    (String (ascii_of_nat 162) EmptyString)).

(** [line[1:]] for a line that starts with a dash or with a bullet. *)
Definition drop_first (line : string) : string :=
  if String.prefix bullet line
  then match line with
       | String _ (String _ (String _ rest)) => rest
       | _ => EmptyString
       end
  else match line with
       | String _ rest => rest
       | EmptyString => EmptyString
       end.

(** The state of the loop: [current_section] and the two lists of
    [result]. *)
Record state : Type := mk_state {
  current_section : option section;
  key_matches : list string;
  gaps : list string
}.

(** One iteration of [for line in lines]. *)
Definition step (st : state) (raw_line : string) : state :=
  let line := strip raw_line in
  if isin "matches:" (lower line) || isin "strengths:" (lower line)
  then mk_state (Some KEY_MATCHES) (key_matches st) (gaps st)
  else if isin "gaps:" (lower line) || isin "weaknesses:" (lower line)
  then mk_state (Some GAPS) (key_matches st) (gaps st)
  else if truthy_str line
          && (String.prefix "-" line || String.prefix bullet line)
  then match current_section st with
       | Some KEY_MATCHES =>
           mk_state (current_section st)
             (key_matches st ++ [strip (drop_first line)]) (gaps st)
       | Some GAPS =>
           mk_state (current_section st) (key_matches st)
             (gaps st ++ [strip (drop_first line)])
       | None => st
       end
  else st.

Definition scan (lines : list string) (st : state) : state :=
  fold_left step lines st.

Definition _extract_fallback (text : string) : AnalysisData.t :=
  let reasoning :=
    if (PyStr.len text >? 500)%Z
    then (PyStr.take 500 text ++ "...")%string
    else text in
  let lines := PyStr.split newline text in
  let st := scan lines (mk_state None [] []) in
  AnalysisData.mk (Some EmptyString) (Some EmptyString) (Some EmptyString)
    (Some (key_matches st)) (Some (gaps st)) (Some reasoning) None.

Section Json.

(** [json.loads(text)]: the decoded object, or [JSONDecodeError]. *)
Variable json_loads : string -> outcome AnalysisData.t.

Definition parse (text : string) : AnalysisData.t :=
  match json_loads text with
  | Returned d => d
  | Raised _ => _extract_fallback text
  end.

End Json.

(** A line that sets [current_section]. *)
Definition is_header (raw_line : string) : bool :=
  let line := lower (strip raw_line) in
  isin "matches:" line || isin "strengths:" line
  || isin "gaps:" line || isin "weaknesses:" line.

End MatchOutputParser.

(* ------------------------------------------------------------------ *)
(** ** Input sanitising ([src/utils/validators.py]) *)

Module Validators.

Definition double_quote : ascii := ascii_of_nat 34.

(** The class of the first [re.sub] of [sanitize_text_input]. *)
Definition injection_chars : list ascii :=
  ["<"%char; ">"%char; double_quote; "'"%char; ";"%char; "&"%char].

Definition sanitize_text_input (text : string) (max_length : Z) : string :=
  if negb (truthy_str text) then EmptyString
  else
    let text := strip text in
    let text :=
      if (PyStr.len text >? max_length)%Z
      then PyStr.slice_to max_length text else text in
    let text := PyStr.remove_chars injection_chars text in
    PyStr.collapse_ws false text.

End Validators.

(* ------------------------------------------------------------------ *)
(** ** Success statistics ([src/services/database.py]) *)

Module Database.

(** A row of the query of [get_success_statistics]; a column of a missing
    joined row is [None]. *)
Record row : Type := mk_row {
  recommendation : option string;
  applied : option Z;
  response_received : option Z;
  interview_scheduled : option Z;
  outcome : option string
}.

(** Truthiness of a text column and of a boolean column. *)
Definition truthy_text (v : option string) : bool :=
  match v with Some s => truthy_str s | None => false end.

Definition truthy_flag (v : option Z) : bool :=
  match v with Some n => negb (n =? 0)%Z | None => false end.

(** A dict from text to int, in insertion order. *)
Definition counter : Type := list (string * Z).

(** [d.get(key, 0)]. *)
Fixpoint get (d : counter) (key : string) : Z :=
  match d with
  | [] => 0%Z
  | (k, n) :: rest => if String.eqb k key then n else get rest key
  end.

(** [d[key] = value]. *)
Fixpoint set (d : counter) (key : string) (value : Z) : counter :=
  match d with
  | [] => [(key, value)]
  | (k, n) :: rest =>
      if String.eqb k key then (k, value) :: rest
      else (k, n) :: set rest key value
  end.

Record stats : Type := mk_stats {
  total_analyses : Z;
  recommendations : counter;
  sent : Z;
  responses : Z;
  interviews : Z;
  success_rates : list (string * Q);
  outcomes : counter
}.

(** One iteration of [for row in rows]. *)
Definition tally (st : stats) (r : row) : stats :=
  let recommendations :=
    match recommendation r with
    | Some key =>
        if truthy_str key
        then set (recommendations st) key (get (recommendations st) key + 1)
        else recommendations st
    | None => recommendations st
    end in
  if truthy_flag (applied r)
  then
    mk_stats (total_analyses st) recommendations
      (sent st + 1)
      (if truthy_flag (response_received r) then responses st + 1 else responses st)
      (if truthy_flag (interview_scheduled r) then interviews st + 1 else interviews st)
      (success_rates st)
      (match outcome r with
       | Some key =>
           if truthy_str key
           then set (outcomes st) key (get (outcomes st) key + 1)
           else outcomes st
       | None => outcomes st
       end)
  else
    mk_stats (total_analyses st) recommendations (sent st) (responses st)
      (interviews st) (success_rates st) (outcomes st).

(** The body of the [try]: it raises only if a division does. *)
Definition compute_statistics (rows : list row) : Py.outcome stats :=
  let st :=
    fold_left tally rows
      (mk_stats (len rows)
         [("apply"%string, 0%Z); ("maybe"%string, 0%Z); ("skip"%string, 0%Z)]
         0 0 0 [] []) in
  if (sent st >? 0)%Z
  then
    bind (truediv (responses st) (sent st)) (fun response_rate =>
    bind (truediv (interviews st) (sent st)) (fun interview_rate =>
    Returned
      (mk_stats (total_analyses st) (recommendations st) (sent st)
         (responses st) (interviews st)
         [("response_rate"%string, response_rate);
          ("interview_rate"%string, interview_rate)]
         (outcomes st))))
  else Returned st.

(** [get_success_statistics], given what the query returned or raised; the
    empty dict of the [except] branch is [None]. *)
Definition get_success_statistics (query : Py.outcome (list row)) : option stats :=
  match bind query compute_statistics with
  | Returned st => Some st
  | Raised _ => None
  end.

(** Number of rows whose recommendation is [key]. *)
Definition rows_recommending (key : string) (rows : list row) : Z :=
  Z.of_nat (List.length
    (filter (fun r => match recommendation r with
                      | Some k => String.eqb k key
                      | None => false
                      end) rows)).

End Database.

(* ------------------------------------------------------------------ *)
(** ** Records built when parsing fails ([cv_parser.py], [job_scraper.py]) *)

Module CVOutputParser.

(** The values [current_section] takes once it is set. *)
Inductive section : Type :=
| SKILLS | EXPERIENCE | EDUCATION | CERTIFICATIONS | JOB_TITLES | INDUSTRIES.

(** The dict [result] of [_extract_fallback]. *)
Record result : Type := mk_result {
  skills : list string;
  experience_years : Z;
  education : list string;
  certifications : list string;
  job_titles : list string;
  industries : list string
}.

(** [c.isdigit()] on an ASCII character. *)
Definition is_digit (c : ascii) : bool :=
  let n := N_of_ascii c in ((48 <=? n) && (n <=? 57))%N.

(** [any(char.isdigit() for char in line)]. *)
Fixpoint has_digit (line : string) : bool :=
  match line with
  | EmptyString => false
  | String c r => is_digit c || has_digit r
  end.

(** The digits at the head of [s]. *)
Fixpoint digit_run (s : string) : string :=
  match s with
  | EmptyString => EmptyString
  | String c r => if is_digit c then String c (digit_run r) else EmptyString
  end.

(** [re.findall('[0-9]+', line)[0]], when there is a match. *)
Fixpoint first_number (line : string) : option string :=
  match line with
  | EmptyString => None
  | String c r => if is_digit c then Some (digit_run line) else first_number r
  end.

(** [int(digits)] on a string of decimal digits. *)
Fixpoint int_of_digits (acc : Z) (digits : string) : Z :=
  match digits with
  | EmptyString => acc
  | String c r =>
      int_of_digits (acc * 10 + (Z.of_N (N_of_ascii c) - 48))%Z r
  end.

(** [result[section].extend(items)]; [experience] is not a key of
    [result], so nothing is stored under it. *)
Definition extend (res : result) (sec : section) (items : list string) : result :=
  match sec with
  | SKILLS =>
      mk_result (skills res ++ items) (experience_years res) (education res)
        (certifications res) (job_titles res) (industries res)
  | EXPERIENCE => res
  | EDUCATION =>
      mk_result (skills res) (experience_years res) (education res ++ items)
        (certifications res) (job_titles res) (industries res)
  | CERTIFICATIONS =>
      mk_result (skills res) (experience_years res) (education res)
        (certifications res ++ items) (job_titles res) (industries res)
  | JOB_TITLES =>
      mk_result (skills res) (experience_years res) (education res)
        (certifications res) (job_titles res ++ items) (industries res)
  | INDUSTRIES =>
      mk_result (skills res) (experience_years res) (education res)
        (certifications res) (job_titles res) (industries res ++ items)
  end.

Definition is_experience (sec : section) : bool :=
  match sec with EXPERIENCE => true | _ => false end.

(** The section a header line opens, if the line is one; the tests are
    made in the order of the [if]/[elif] chain. *)
Definition header (line : string) : option section :=
  if isin "skills:" (lower line) then Some SKILLS
  else if isin "experience:" (lower line) then Some EXPERIENCE
  else if isin "education:" (lower line) then Some EDUCATION
  else if isin "certifications:" (lower line) then Some CERTIFICATIONS
  else if isin "job titles:" (lower line) || isin "positions:" (lower line)
  then Some JOB_TITLES
  else if isin "industries:" (lower line) then Some INDUSTRIES
  else None.

(** One iteration of [for line in lines], on [current_section] and
    [result]. *)
Definition step (st : option section * result) (raw_line : string)
  : option section * result :=
  let '(current_section, res) := st in
  let line := strip raw_line in
  match header line with
  | Some sec => (Some sec, res)
  | None =>
      match current_section with
      | Some sec =>
          if truthy_str line
          then
            if is_experience sec && has_digit line
            then
              match first_number line with
              | Some years =>
                  (current_section,
                   mk_result (skills res) (int_of_digits 0 years) (education res)
                     (certifications res) (job_titles res) (industries res))
              | None => st
              end
            else
              (current_section,
               extend res sec (map strip (PyStr.split ","%char line)))
          else st
      | None => st
      end
  end.

Definition _extract_fallback (text : string) : result :=
  snd (fold_left step (PyStr.split (ascii_of_nat 10) text)
         (None, mk_result [] 0 [] [] [] [])).

End CVOutputParser.

Module CVParser.



End CVParser.

Module JobOutputParser.

(** The values [current_section] takes once it is set. *)
Inductive section : Type :=
| REQUIREMENTS | SKILLS_REQUIRED | EXPERIENCE | KEY_RESPONSIBILITIES.

(** The dict [result] of [_extract_fallback]. *)
Record result : Type := mk_result {
  requirements : list string;
  skills_required : list string;
  experience_required : Z;
  job_type : option string;
  industry : option string;
  key_responsibilities : list string
}.

(** The second prefix the source tests for: the seven UTF-8 bytes of the
    three characters it spells, of which the first takes two. *)
Definition bullet : string :=
  String (ascii_of_nat 195) (String (ascii_of_nat 162)
    (String (ascii_of_nat 226) (String (ascii_of_nat 130)
      (String (ascii_of_nat 172) (String (ascii_of_nat 194)
        (String (ascii_of_nat 162) EmptyString)))))).

(** [line[1:]] for a line that starts with a dash or with [bullet]: one
    character goes, one byte for the dash and two for the other. *)
Definition drop_first (line : string) : string :=
  if String.prefix bullet line
  then match line with
       | String _ (String _ rest) => rest
       | _ => EmptyString
       end
  else match line with
       | String _ rest => rest
       | EmptyString => EmptyString
       end.

(** [result[section].append(...)] or [.extend(...)] with [items]. *)
Definition extend (res : result) (sec : section) (items : list string) : result :=
  match sec with
  | REQUIREMENTS =>
      mk_result (requirements res ++ items) (skills_required res)
        (experience_required res) (job_type res) (industry res)
        (key_responsibilities res)
  | SKILLS_REQUIRED =>
      mk_result (requirements res) (skills_required res ++ items)
        (experience_required res) (job_type res) (industry res)
        (key_responsibilities res)
  | EXPERIENCE => res
  | KEY_RESPONSIBILITIES =>
      mk_result (requirements res) (skills_required res)
        (experience_required res) (job_type res) (industry res)
        (key_responsibilities res ++ items)
  end.

Definition is_experience (sec : section) : bool :=
  match sec with EXPERIENCE => true | _ => false end.

(** The section a header line opens, in the order of the [if]/[elif]
    chain. *)
Definition header (line : string) : option section :=
  if isin "requirements:" (lower line) then Some REQUIREMENTS
  else if isin "skills:" (lower line) then Some SKILLS_REQUIRED
  else if isin "experience:" (lower line) then Some EXPERIENCE
  else if isin "responsibilities:" (lower line) then Some KEY_RESPONSIBILITIES
  else None.

(** One iteration of [for line in lines]. *)
Definition step (st : option section * result) (raw_line : string)
  : option section * result :=
  let '(current_section, res) := st in
  let line := strip raw_line in
  match header line with
  | Some sec => (Some sec, res)
  | None =>
      match current_section with
      | Some sec =>
          if truthy_str line
          then
            if is_experience sec && CVOutputParser.has_digit line
            then
              match CVOutputParser.first_number line with
              | Some years =>
                  (current_section,
                   mk_result (requirements res) (skills_required res)
                     (CVOutputParser.int_of_digits 0 years) (job_type res)
                     (industry res) (key_responsibilities res))
              | None => st
              end
            else if String.prefix "-" line || String.prefix bullet line
            then (current_section, extend res sec [strip (drop_first line)])
            else if PyStr.has_char ","%char line
            then (current_section,
                  extend res sec (map strip (PyStr.split ","%char line)))
            else (current_section, extend res sec [line])
          else st
      | None => st
      end
  end.

Definition _extract_fallback (text : string) : result :=
  snd (fold_left step (PyStr.split (ascii_of_nat 10) text)
         (None, mk_result [] [] 0 None None [])).

End JobOutputParser.

Module JobScraper.


(** The [JobPosting] that [scrape_job] builds from the scraped texts and
    the dict the fallback parser made of the reply. *)
Definition job_of_fallback (job_id url title company location description : string)
  (parsed_job_data : JobOutputParser.result) : JobPosting.t :=
  JobPosting.mk job_id url title company location description
    (JobOutputParser.requirements parsed_job_data)
    (JobOutputParser.skills_required parsed_job_data)
    (JobOutputParser.experience_required parsed_job_data)
    (JobOutputParser.industry parsed_job_data).

End JobScraper.

(* ------------------------------------------------------------------ *)
(** ** Orders and predicates used to state properties *)

Module Order.

(** Skip < Maybe < Apply. *)
Definition rank (r : RecommendationStatus) : Z :=
  match r with
  | SKIP => 0
  | MAYBE => 1
  | APPLY => 2
  end%Z.

(** White space occurs in [s] only as single spaces: no tab or newline, no
    two spaces in a row; [after_space] tells that a space came just before. *)
Fixpoint single_spaced (after_space : bool) (s : string) : bool :=
  match s with
  | EmptyString => true
  | String c r =>
      if is_space c
      then Ascii.eqb c " "%char && negb after_space && single_spaced true r
      else single_spaced false r
  end.

(** [s] has no white space at either end. *)
Definition trimmed (s : string) : bool := String.eqb (strip s) s.

(** The highest rung of the career ladder senior < lead < principal <
    manager < director among the keywords that [holds] accepts; 0 if none. *)
Definition ladder_level (holds : string -> bool) : Z :=
  if holds "director"%string then 5
  else if holds "manager"%string then 4
  else if holds "principal"%string then 3
  else if holds "lead"%string then 2
  else if holds "senior"%string then 1
  else 0.

(** Two scores differ by at most [d]; by at least [d]. *)
Definition within (d a b : Q) : Prop := - d <= a - b <= d.

Definition apart (d a b : Q) : Prop := d <= a - b \/ d <= b - a.

End Order.

(* ------------------------------------------------------------------ *)
(** ** Arithmetic and string lemmas *)

Import JobMatcher.

Lemma Returned_inj {A} (x y : A) : Returned x = Returned y -> x = y.
Proof. intros H. injection H as H. exact H. Qed.

Lemma Qltb_spec (a b : Q) : reflect (a < b) (Qltb a b).
Proof.
  unfold Qltb. destruct (Qle_bool b a) eqn:E; simpl; constructor.
  - apply Qle_bool_iff in E. apply Qle_not_lt; exact E.
  - apply Qnot_le_lt. intro H. apply Qle_bool_iff in H. congruence.
Qed.

Lemma Qleb_spec (a b : Q) : reflect (a <= b) (Qleb a b).
Proof.
  unfold Qleb. destruct (Qle_bool a b) eqn:E; constructor.
  - apply Qle_bool_iff; exact E.
  - intro H. apply Qle_bool_iff in H. congruence.
Qed.

(** Case analysis on every float comparison of the goal, innermost first. *)
Ltac no_cmp t :=
  lazymatch t with
  | context [Qltb _ _] => fail
  | context [Qleb _ _] => fail
  | context [Qle_bool _ _] => fail
  | _ => idtac
  end.

Ltac qcases :=
  repeat match goal with
    | |- context [Qltb ?a ?b] => no_cmp a; no_cmp b; destruct (Qltb_spec a b)
    | |- context [Qleb ?a ?b] => no_cmp a; no_cmp b; destruct (Qleb_spec a b)
    | |- context [Qle_bool ?a ?b] =>
        no_cmp a; no_cmp b; destruct (Qleb_spec a b); unfold Qleb in *
    end.

(** Replace every [Qmin]/[Qmax] of the goal, innermost first, by a variable
    and its characterisation. *)
Ltac no_minmax t :=
  lazymatch t with
  | context [Qmin _ _] => fail
  | context [Qmax _ _] => fail
  | _ => idtac
  end.

Ltac qminmax :=
  repeat match goal with
    | |- context [Qmin ?a ?b] =>
        no_minmax a; no_minmax b;
        let m := fresh "m" in
        pose proof (Q.min_spec a b); set (m := Qmin a b) in *; clearbody m
    | |- context [Qmax ?a ?b] =>
        no_minmax a; no_minmax b;
        let m := fresh "m" in
        pose proof (Q.max_spec a b); set (m := Qmax a b) in *; clearbody m
    end.

Ltac qsolve := unfold Py.min, Py.max, Spec.clamp; qcases; qminmax; lra.

Lemma py_min_Qmin (a b : Q) : Py.min a b == Qmin a b.
Proof. qsolve. Qed.

Lemma py_max_Qmax (a b : Q) : Py.max a b == Qmax a b.
Proof. qsolve. Qed.

Lemma py_clamp (x lo hi : Q) : Py.max lo (Py.min hi x) == Spec.clamp x lo hi.
Proof. qsolve. Qed.

Lemma py_clamp_bounds (x lo hi : Q) :
  lo <= hi -> lo <= Py.max lo (Py.min hi x) <= hi.
Proof. intros. qsolve. Qed.

Lemma Qle_bool_spec (a b : Q) : reflect (a <= b) (Qle_bool a b).
Proof. exact (Qleb_spec a b). Qed.

(* ------------------------------------------------------------------ *)
(** ** Recommendation rule *)

Lemma determine_recommendation_cases (o c q : Q) :
  Spec.recommends o c q (_determine_recommendation o c q).
Proof.
  unfold _determine_recommendation.
  destruct (Qleb_spec 75 o), (Qleb_spec 70 c); simpl;
    try (constructor; split; assumption);
    destruct (Qleb_spec 60 o), (Qleb_spec 60 q); simpl;
    try (apply Spec.rule2; [tauto | split; assumption]);
    destruct (Qleb_spec 45 o), (Qleb_spec 60 c); simpl;
    try (apply Spec.rule3; [tauto | tauto | split; assumption]);
    apply Spec.rule4; tauto.
Qed.

Lemma recommends_functional (o c q : Q) (r r' : RecommendationStatus) :
  Spec.recommends o c q r -> Spec.recommends o c q r' -> r = r'.
Proof.
  intros H H'; inversion H; inversion H'; subst; try reflexivity; tauto.
Qed.

(** Claim C2. [_determine_recommendation] is a function of
    (overall, confidence, qualification) alone, and it is the first-match
    rule: Apply if overall >= 75 and confidence >= 70; else Apply if
    overall >= 60 and qualification >= 60; else Maybe if overall >= 45 and
    confidence >= 60; else Skip. Equal inputs give equal recommendations;
    overall 75 with confidence 70 gives Apply whatever the qualification;
    overall 74.9 with confidence 70 misses rule 1 and is decided by rules 2
    and 3. *)
Theorem determine_recommendation_first_match :
  (forall o c q r,
      _determine_recommendation o c q = r <-> Spec.recommends o c q r)
  /\ (forall o c q o' c' q',
         o == o' -> c == c' -> q == q' ->
         _determine_recommendation o c q = _determine_recommendation o' c' q')
  /\ (forall q, _determine_recommendation 75 70 q = APPLY)
  /\ (forall q,
         ~ Spec.recommends 74.9 70 q SKIP
         /\ _determine_recommendation 74.9 70 q
            = if Qle_bool 60 q then APPLY else MAYBE).
Proof.
  split; [| split; [| split]].
  - intros o c q r; split.
    + intros <-. apply determine_recommendation_cases.
    + intros H. eapply recommends_functional;
        [apply determine_recommendation_cases | exact H].
  - intros o c q o' c' q' Ho Hc Hq.
    eapply recommends_functional; [apply determine_recommendation_cases |].
    pose proof (determine_recommendation_cases o' c' q') as H.
    inversion H as [A | A B | A B C | A B C]; clear H;
      [ apply Spec.rule1 | apply Spec.rule2 | apply Spec.rule3 | apply Spec.rule4 ];
      lra.
  - intros q. unfold _determine_recommendation. reflexivity.
  - intros q. split.
    + intros H. inversion H as [ | | | A B C]. apply C. lra.
    + unfold _determine_recommendation, Qleb.
      destruct (Qle_bool 60 q); reflexivity.
Qed.

(** The rule is insensitive to how a float is written: 160/2 is 80. *)
Lemma determine_recommendation_first_match_witness :
  _determine_recommendation 80 72 10 = _determine_recommendation (160 # 2) 72 (20 # 2).
Proof.
  apply (proj1 (proj2 determine_recommendation_first_match));
    reflexivity.
Defined.

(* ------------------------------------------------------------------ *)
(** ** Confidence estimator *)

(** Deciding [np.std(xs) > t] on the variance is exact over the reals. *)
Lemma std_exceeds_real (xs : list Q) (t : Q) :
  0 <= t ->
  std_exceeds xs t = true <-> (Q2R t < sqrt (Q2R (var xs)))%R.
Proof.
  intros Ht. unfold std_exceeds.
  assert (Ht' : (0 <= Q2R t)%R)
    by (replace 0%R with (Q2R 0) by (unfold Q2R; simpl; Lra.lra);
        apply Qle_Rle; exact Ht).
  destruct (Qltb_spec (t * t) (var xs)) as [H | H]; split; intros G;
    try reflexivity; try discriminate.
  - apply Qlt_Rlt in H. rewrite Q2R_mult in H.
    rewrite <- (sqrt_square (Q2R t)) at 1 by exact Ht'.
    apply sqrt_lt_1_alt. split; [| exact H].
    apply Rmult_le_pos; exact Ht'.
  - exfalso. apply H. apply Rlt_Qlt. rewrite Q2R_mult.
    rewrite <- (sqrt_square (Q2R t)) in G by exact Ht'.
    apply sqrt_lt_0_alt. exact G.
Qed.

Lemma spec_clamp_bounds (x lo hi : Q) : lo <= hi -> lo <= Spec.clamp x lo hi <= hi.
Proof. intros. qsolve. Qed.

Lemma calculate_confidence_spec (q c s : Q) (a : AnalysisData.t) :
  _calculate_confidence q c s a == Spec.confidence q c s a.
Proof.
  unfold _calculate_confidence, Spec.confidence, Spec.raw_confidence.
  rewrite py_clamp.
  unfold Spec.qualification_adjustment, Spec.matches_adjustment,
    Spec.gaps_adjustment, Spec.spread_adjustment.
  rewrite !Z.gtb_ltb.
  destruct (3 <? len _)%Z, (2 <? len _)%Z, (std_exceeds _ 20);
    destruct (Qltb_spec 80 q), (Qltb_spec 60 q), (Qltb_spec q 40),
      (Qleb_spec q 80); simpl; try reflexivity; try lra.
Qed.

Lemma raw_confidence_bounds (q c s : Q) (a : AnalysisData.t) :
  35 <= Spec.raw_confidence q c s a <= 95.
Proof.
  unfold Spec.raw_confidence, Spec.qualification_adjustment,
    Spec.matches_adjustment, Spec.gaps_adjustment, Spec.spread_adjustment.
  destruct (3 <? len _)%Z, (2 <? len _)%Z, (std_exceeds _ 20);
    destruct (Qltb_spec 80 q), (Qltb_spec 60 q), (Qltb_spec q 40),
      (Qleb_spec q 80); simpl; lra.
Qed.

(** Claim C6. [_calculate_confidence] returns
    clamp(70 + a + b + c + d, 20, 95) with a = +15 if qualification > 80,
    +5 if 60 < qualification <= 80, -15 if qualification < 40 and 0 in
    [40, 60]; b = +10 for more than 3 key matches; c = -10 for more than 2
    gaps; d = -10 if the population standard deviation of the three scores
    exceeds 20 (the test on the variance is that test on the square root).
    The result lies in [20, 95]. *)
Theorem calculate_confidence_formula (q c s : Q) (a : AnalysisData.t) :
  _calculate_confidence q c s a
  == Spec.clamp
       (70 + Spec.qualification_adjustment q + Spec.matches_adjustment a
        + Spec.gaps_adjustment a + Spec.spread_adjustment q c s) 20 95
  /\ 20 <= _calculate_confidence q c s a <= 95
  /\ (Spec.spread_adjustment q c s == -10
      <-> (20 < sqrt (Q2R (var [q; c; s])))%R)
  /\ (Spec.spread_adjustment q c s == 0
      <-> ~ (20 < sqrt (Q2R (var [q; c; s])))%R).
Proof.
  assert (R20 : Q2R 20 = 20%R) by (unfold Q2R; simpl; Lra.lra).
  pose proof (std_exceeds_real [q; c; s] 20) as Hstd.
  rewrite R20 in Hstd.
  split; [apply calculate_confidence_spec |].
  split; [rewrite calculate_confidence_spec; apply spec_clamp_bounds; lra |].
  unfold Spec.spread_adjustment.
  destruct (std_exceeds [q; c; s] 20); split; split; intros H;
    try reflexivity; try (exfalso; lra).
  - apply Hstd; [lra | reflexivity].
  - exfalso. apply H. apply Hstd; [lra | reflexivity].
  - apply Hstd in H; [discriminate | lra].
  - intros G. apply Hstd in G; [discriminate | lra].
Qed.

(** Claim C10. The adjustments to the base of 70 sum to no less than -35,
    so the confidence before clamping is at least 35: the lower clamp at 20
    never acts, and the confidence returned lies in [35, 95]. *)
Theorem calculate_confidence_at_least_35 (q c s : Q) (a : AnalysisData.t) :
  -35 <= Spec.qualification_adjustment q + Spec.matches_adjustment a
         + Spec.gaps_adjustment a + Spec.spread_adjustment q c s
  /\ 35 <= Spec.raw_confidence q c s a
  /\ _calculate_confidence q c s a == Qmin 95 (Spec.raw_confidence q c s a)
  /\ 35 <= _calculate_confidence q c s a <= 95.
Proof.
  pose proof (raw_confidence_bounds q c s a) as Hraw.
  pose proof (calculate_confidence_spec q c s a) as Hc.
  unfold Spec.confidence, Spec.clamp in Hc.
  split; [unfold Spec.raw_confidence in Hraw; lra |].
  split; [lra |].
  revert Hc. qminmax. intros Hc. lra.
Qed.

(* ------------------------------------------------------------------ *)
(** ** Strategic scorer *)

Lemma strategic_score_unfold (cv : CVData.t) (job : JobPosting.t) (a : AnalysisData.t) :
  let '(score, d) := _calculate_strategic_score cv job a in
  score = Py.max 0 (Py.min 100 (Spec.strategic_raw d))
  /\ StratDetails.base_strategic d = 60
  /\ StratDetails.company_size_fit d = company_size_fit cv job
  /\ (StratDetails.career_growth_potential d = 0
      \/ StratDetails.career_growth_potential d = 10
      \/ StratDetails.career_growth_potential d = 20)
  /\ 0 <= StratDetails.skill_development_bonus d <= 15.
Proof.
  unfold _calculate_strategic_score.
  destruct (scan_levels _ _ _ _ _ _) as [current_level target_level].
  unfold Spec.strategic_raw; simpl.
  repeat split.
  - destruct (target_level >? current_level)%Z; [tauto |].
    destruct (target_level =? current_level)%Z; tauto.
  - destruct (count_emerging _ >? 0)%Z eqn:E; [| lra].
    apply Z.gtb_lt in E. rewrite Zlt_Qlt in E.
    change (inject_Z 0) with 0 in E. qsolve.
  - destruct (count_emerging _ >? 0)%Z; qsolve.
Qed.

Lemma company_size_fit_values (cv : CVData.t) (job : JobPosting.t) :
  company_size_fit cv job = 5 \/ company_size_fit cv job = 10.
Proof.
  unfold company_size_fit.
  destruct (_ || _); [destruct (_ <? _)%Z; tauto |].
  destruct (_ || _); [destruct (_ >? _)%Z; tauto | tauto].
Qed.

Lemma signals_code (job : JobPosting.t) :
  Spec.startup_signal job
  = (isin "startup" (lower (JobPosting.company job))
     || isin "small" (lower (JobPosting.description job)))
  /\ Spec.enterprise_signal job
     = (isin "enterprise" (lower (JobPosting.company job))
        || isin "fortune" (lower (JobPosting.description job))).
Proof. split; reflexivity. Qed.

(** Claim C8. [company_size_fit] is 5 by default; a posting with a startup
    signal (company contains startup, or description contains small) makes
    it 10 for a candidate with under 5 years; a posting with an enterprise
    signal (company contains enterprise, or description contains fortune)
    and no startup signal makes it 10 for a candidate with over 3 years.
    The startup test comes first and excludes the enterprise test: for a
    posting with both signals the startup branch alone decides. The value
    is the one the strategic score adds. *)
Theorem company_size_fit_first_branch (cv : CVData.t) (job : JobPosting.t)
  (a : AnalysisData.t) :
  let fit := StratDetails.company_size_fit (snd (_calculate_strategic_score cv job a)) in
  let years := CVData.experience_years cv in
  fit = company_size_fit cv job
  /\ (fit = 5 \/ fit = 10)
  /\ (Spec.startup_signal job = true ->
      fit = if (years <? 5)%Z then 10 else 5)
  /\ (Spec.startup_signal job = false -> Spec.enterprise_signal job = true ->
      fit = if (3 <? years)%Z then 10 else 5)
  /\ (Spec.startup_signal job = false -> Spec.enterprise_signal job = false ->
      fit = 5)
  /\ (Spec.startup_signal job = true -> Spec.enterprise_signal job = true ->
      (5 <= years)%Z -> fit = 5).
Proof.
  intros fit years.
  assert (Hfit : fit = company_size_fit cv job).
  { subst fit. pose proof (strategic_score_unfold cv job a) as H.
    destruct (_calculate_strategic_score cv job a) as [score d]. simpl. tauto. }
  split; [exact Hfit |].
  rewrite Hfit. split; [apply company_size_fit_values |].
  destruct (signals_code job) as [-> ->]. unfold company_size_fit. fold years.
  rewrite Z.gtb_ltb.
  repeat split; intros.
  - rewrite H. reflexivity.
  - rewrite H, H0. reflexivity.
  - rewrite H, H0. reflexivity.
  - rewrite H. destruct (Z.ltb_spec years 5); [lia | reflexivity].
Qed.

(** With both signals and ten years of experience the startup branch leaves
    the fit at 5, although the enterprise branch alone would give 10. *)
Lemma company_size_fit_first_branch_witness :
  Spec.startup_signal Samples.job_both_signals = true
  /\ Spec.enterprise_signal Samples.job_both_signals = true
  /\ StratDetails.company_size_fit
       (snd (_calculate_strategic_score Samples.cv_veteran
               Samples.job_both_signals Samples.empty_analysis)) = 5.
Proof.
  split; [reflexivity |]. split; [reflexivity |].
  apply (company_size_fit_first_branch Samples.cv_veteran
           Samples.job_both_signals Samples.empty_analysis);
    [reflexivity | reflexivity | simpl; lia].
Defined.

(** Claim C9. The strategic score lies in [65, 100]: the base of 60 always
    gains a company-size fit of at least 5, the career-growth and
    skill-development terms are never negative, so the sum before clamping
    is at least 65 and the lower clamp to 0 never acts; the sum is at most
    105, and 105 is reached, where the upper clamp gives 100. *)
Theorem strategic_score_range :
  (forall cv job a,
      let '(score, d) := _calculate_strategic_score cv job a in
      StratDetails.base_strategic d = 60
      /\ 5 <= StratDetails.company_size_fit d
      /\ 0 <= StratDetails.career_growth_potential d
      /\ 0 <= StratDetails.skill_development_bonus d
      /\ 65 <= Spec.strategic_raw d <= 105
      /\ score == Qmin 100 (Spec.strategic_raw d)
      /\ 65 <= score <= 100)
  /\ (exists cv job a,
         let '(score, d) := _calculate_strategic_score cv job a in
         Spec.strategic_raw d == 105 /\ score == 100).
Proof.
  split.
  - intros cv job a.
    pose proof (strategic_score_unfold cv job a) as H.
    destruct (_calculate_strategic_score cv job a) as [score d].
    destruct H as (Hs & Hb & Hf & Hg & Hd).
    pose proof (company_size_fit_values cv job) as Hv. rewrite <- Hf in Hv.
    unfold Spec.strategic_raw in *. subst score.
    rewrite Hb.
    assert (Hfit : 5 <= StratDetails.company_size_fit d <= 10)
      by (destruct Hv as [-> | ->]; lra).
    assert (Hgrow : 0 <= StratDetails.career_growth_potential d <= 20)
      by (destruct Hg as [-> | [-> | ->]]; lra).
    repeat split; try lra; qsolve.
  - exists Samples.cv_junior, Samples.job_director, Samples.empty_analysis.
    vm_compute. split; reflexivity.
Qed.

(* ------------------------------------------------------------------ *)
(** ** Lexical similarity *)

Lemma count_cons {A} (p : A -> bool) (x : A) (l : list A) :
  Spec.count p (x :: l) = ((if p x then 1 else 0) + Spec.count p l)%Z.
Proof.
  unfold Spec.count. cbn [filter].
  destruct (p x); [cbn [List.length]; rewrite Nat2Z.inj_succ |]; lia.
Qed.

Lemma count_bounds {A} (p : A -> bool) (l : list A) :
  (0 <= Spec.count p l <= len l)%Z.
Proof.
  unfold Spec.count, len. pose proof (filter_length_le p l). lia.
Qed.

Lemma count_map {A B} (p : B -> bool) (f : A -> B) (l : list A) :
  Spec.count p (map f l) = Spec.count (fun x => p (f x)) l.
Proof.
  induction l as [| x l IH]; [reflexivity |].
  simpl map. rewrite !count_cons, IH. reflexivity.
Qed.

Lemma count_ext {A} (p p' : A -> bool) (l : list A) :
  (forall x, p x = p' x) -> Spec.count p l = Spec.count p' l.
Proof.
  intros E. induction l as [| x l IH]; [reflexivity |].
  rewrite !count_cons, IH, E. reflexivity.
Qed.

Lemma existsb_map {A B} (p : B -> bool) (f : A -> B) (l : list A) :
  existsb p (map f l) = existsb (fun x => p (f x)) l.
Proof.
  induction l as [| x l IH]; [reflexivity |]. simpl. rewrite IH. reflexivity.
Qed.

Lemma overlaps_some_existsb (job_skill : string) (cv_skills : list string) :
  overlaps_some job_skill cv_skills
  = existsb (fun c => isin job_skill c || isin c job_skill) cv_skills.
Proof.
  induction cv_skills as [| c l IH]; [reflexivity |].
  simpl. destruct (isin job_skill c || isin c job_skill); [reflexivity | exact IH].
Qed.

Lemma count_matches_count (job_skills cv_skills : list string) (matches : Z) :
  count_matches job_skills cv_skills matches
  = (matches + Spec.count (fun r => overlaps_some r cv_skills) job_skills)%Z.
Proof.
  revert matches. induction job_skills as [| r l IH]; intros matches.
  - unfold Spec.count. simpl. lia.
  - simpl count_matches. rewrite IH, count_cons.
    destruct (overlaps_some r cv_skills); lia.
Qed.

Lemma fraction_bounds (a b : Z) :
  (0 <= a <= b)%Z -> (0 < b)%Z -> 0 <= inject_Z a / inject_Z b <= 1.
Proof.
  intros [Ha Hab] Hb.
  rewrite Zle_Qle in Ha, Hab. rewrite Zlt_Qlt in Hb.
  change (inject_Z 0) with 0 in *.
  generalize dependent (inject_Z a). generalize dependent (inject_Z b).
  intros y Hy x Hx Hxy.
  split.
  - apply Qle_shift_div_l; [exact Hy | lra].
  - apply Qle_shift_div_r; [exact Hy | lra].
Qed.

Lemma len_pos {A} (l : list A) : truthy_list l = true -> (0 < len l)%Z.
Proof.
  destruct l; [discriminate |]. intros _. unfold len.
  cbn [List.length]. lia.
Qed.

Lemma len_map {A B} (f : A -> B) (l : list A) : len (map f l) = len l.
Proof. unfold len. rewrite length_map. reflexivity. Qed.

Lemma truthy_map {A B} (f : A -> B) (l : list A) :
  truthy_list (map f l) = truthy_list l.
Proof. destruct l; reflexivity. Qed.

(** The fallback is the fraction of required skills that overlap a
    candidate skill, both lower-cased and trimmed. *)
Lemma basic_skill_match_fraction (cv_skills job_skills : list string) :
  truthy_list job_skills = true ->
  _basic_skill_match cv_skills job_skills
  = Returned (Spec.fallback_fraction_trimmed cv_skills job_skills).
Proof.
  intros Hjob. unfold _basic_skill_match, Spec.fallback_fraction_trimmed.
  rewrite truthy_map, Hjob. unfold truediv.
  pose proof (len_pos _ Hjob) as Hlen. rewrite len_map.
  destruct (Z.eqb_spec (len job_skills) 0) as [E | _]; [lia |].
  rewrite count_matches_count, Z.add_0_l, count_map.
  do 3 f_equal. apply count_ext. intros r.
  rewrite overlaps_some_existsb, existsb_map. reflexivity.
Qed.

Lemma fallback_fraction_trimmed_bounds (cv_skills job_skills : list string) :
  truthy_list job_skills = true ->
  0 <= Spec.fallback_fraction_trimmed cv_skills job_skills <= 1.
Proof.
  intros Hjob. apply fraction_bounds; [apply count_bounds | apply len_pos, Hjob].
Qed.

(** The similarity call always returns: the bare [except] turns every
    failure of the vectorizer into the fallback, which cannot fail. *)
Lemma skill_similarity_returns (tfidf : string -> string -> outcome Q)
  (cv_skills job_skills : list string) :
  exists v, _calculate_skill_similarity tfidf cv_skills job_skills = Returned v
            /\ ((forall a b x, tfidf a b = Returned x -> 0 <= x <= 1) ->
                0 <= v <= 1).
Proof.
  unfold _calculate_skill_similarity.
  destruct (truthy_list cv_skills) eqn:Hcv; simpl;
    [| exists 0; split; [reflexivity | intros; lra]].
  destruct (truthy_list job_skills) eqn:Hjob; simpl;
    [| exists 0; split; [reflexivity | intros; lra]].
  destruct (tfidf _ _) as [x | e] eqn:Ht.
  - exists x. split; [reflexivity |]. intros Hrange. eapply Hrange, Ht.
  - rewrite basic_skill_match_fraction by exact Hjob.
    eexists. split; [reflexivity |]. intros _.
    apply fallback_fraction_trimmed_bounds, Hjob.
Qed.

(** Claim C7, as the code has it. Provided the cosine that scikit-learn
    returns lies in [0, 1], the lexical similarity never raises and returns
    a float in [0, 1]; it is exactly 0 when either list is empty; and when
    the vectorizer fails, the failure is caught and the result is the
    substring fallback: the fraction of required skills that occur in, or
    contain, some candidate skill, both sides lower-cased and trimmed of
    surrounding white space. *)
Theorem skill_similarity_safe (tfidf : string -> string -> outcome Q)
  (cv_skills job_skills : list string) :
  (forall a b x, tfidf a b = Returned x -> 0 <= x <= 1) ->
  exists v,
    _calculate_skill_similarity tfidf cv_skills job_skills = Returned v
    /\ 0 <= v <= 1
    /\ (cv_skills = [] \/ job_skills = [] -> v = 0)
    /\ (forall e,
           cv_skills <> [] -> job_skills <> [] ->
           tfidf (join " " cv_skills) (join " " job_skills) = Raised e ->
           _basic_skill_match cv_skills job_skills = Returned v
           /\ v = Spec.fallback_fraction_trimmed cv_skills job_skills).
Proof.
  intros Hrange.
  destruct (skill_similarity_returns tfidf cv_skills job_skills) as (v & Hv & Hb).
  exists v. split; [exact Hv |]. split; [exact (Hb Hrange) |].
  unfold _calculate_skill_similarity in Hv. split.
  - intros [-> | ->]; simpl in Hv.
    + injection Hv as <-. reflexivity.
    + rewrite orb_true_r in Hv. injection Hv as <-. reflexivity.
  - intros e Hcv Hjob Ht.
    destruct cv_skills as [| c cs]; [contradiction |].
    destruct job_skills as [| j js]; [contradiction |].
    cbn [truthy_list negb orb] in Hv. rewrite Ht in Hv.
    rewrite basic_skill_match_fraction in * by reflexivity.
    injection Hv as <-. split; reflexivity.
Qed.

Lemma skill_similarity_safe_witness :
  exists v,
    _calculate_skill_similarity Samples.orthogonal_tfidf
      ["python"; "aws"]%string ["rust"]%string = Returned v
    /\ 0 <= v <= 1
    /\ (["python"; "aws"]%string = [] \/ ["rust"]%string = [] -> v = 0)
    /\ (forall e,
           ["python"; "aws"]%string <> [] -> ["rust"]%string <> [] ->
           Samples.orthogonal_tfidf (join " " ["python"; "aws"]%string)
             (join " " ["rust"]%string) = Raised e ->
           _basic_skill_match ["python"; "aws"]%string ["rust"]%string = Returned v
           /\ v = Spec.fallback_fraction_trimmed
                    ["python"; "aws"]%string ["rust"]%string).
Proof.
  apply (skill_similarity_safe Samples.orthogonal_tfidf).
  intros a b x H. injection H as <-. lra.
Defined.

(** Claim C7 as worded fails: the fallback also trims the skills. The
    candidate skill [C ] and the required skill [ C] share no substring
    before trimming, so the worded fraction is 0, yet the code returns 1. *)
Lemma skill_similarity_fallback_trims :
  _calculate_skill_similarity Samples.failing_tfidf ["C "]%string [" C"]%string
  = Returned (inject_Z 1 / inject_Z 1)
  /\ Spec.fallback_fraction ["C "]%string [" C"]%string == 0
  /\ ~ (forall tfidf cv_skills job_skills e v,
           cv_skills <> [] -> job_skills <> [] ->
           tfidf (join " " cv_skills) (join " " job_skills) = Raised e ->
           _calculate_skill_similarity tfidf cv_skills job_skills = Returned v ->
           v == Spec.fallback_fraction cv_skills job_skills).
Proof.
  split; [reflexivity |]. split; [reflexivity |].
  intros H.
  specialize (H Samples.failing_tfidf ["C "]%string [" C"]%string _ _
                ltac:(discriminate) ltac:(discriminate) eq_refl eq_refl).
  vm_compute in H. discriminate H.
Qed.

(* ------------------------------------------------------------------ *)
(** ** Qualification scorer *)

Lemma experience_match_spec (cv_experience job_experience : Z) :
  _calculate_experience_match cv_experience job_experience
  = Spec.experienceMatch cv_experience job_experience.
Proof.
  unfold _calculate_experience_match, Spec.experienceMatch.
  rewrite Z.geb_leb.
  destruct (job_experience =? 0)%Z; [reflexivity |].
  destruct (job_experience <=? cv_experience)%Z; [reflexivity |].
  cbn [orb].
  generalize (inject_Z job_experience) (inject_Z cv_experience). intros j c.
  destruct (Qleb_spec (j * 0.8) c), (Qle_bool_spec (0.8 * j) c);
    try reflexivity; try (exfalso; lra).
  destruct (Qleb_spec (j * 0.6) c), (Qle_bool_spec (0.6 * j) c);
    try reflexivity; try (exfalso; lra).
  destruct (Qleb_spec (j * 0.4) c), (Qle_bool_spec (0.4 * j) c);
    try reflexivity; exfalso; lra.
Qed.

Lemma experience_match_bounds (cv_experience job_experience : Z) :
  0.2 <= _calculate_experience_match cv_experience job_experience <= 1.
Proof.
  unfold _calculate_experience_match.
  destruct (_ =? _)%Z; [lra |]. destruct (_ >=? _)%Z; [lra |].
  repeat (destruct (Qleb _ _); [lra |]). lra.
Qed.

(** An education entry that holds a keyword is a non-empty string. *)
Lemma keyword_entry_truthy (edu : string) :
  any (fun keyword => isin keyword (lower edu)) education_keywords = true ->
  truthy_str edu = true.
Proof. destruct edu; [intros H; discriminate H | reflexivity]. Qed.

Lemma any_truthy_filter (p : string -> bool) (l : list string) :
  (forall e, p e = true -> truthy_str e = true) ->
  any truthy_str (filter p l) = existsb p l.
Proof.
  intros Hp. induction l as [| e l IH]; [reflexivity |].
  simpl. destruct (p e) eqn:E; [| exact IH].
  simpl. rewrite (Hp e E). reflexivity.
Qed.

Lemma education_flag_spec (education : list string) :
  truthy_list education
  && any truthy_str
       (filter (fun edu => any (fun keyword => isin keyword (lower edu))
                             education_keywords) education)
  = existsb (fun entry =>
       existsb (fun k => Spec.contains_ci k entry)
         ["bachelor"; "master"; "phd"; "degree"]%string) education.
Proof.
  rewrite any_truthy_filter by exact keyword_entry_truthy.
  destruct education; reflexivity.
Qed.

Lemma cert_is_relevant_existsb (cert : string) (skills_required : list string) :
  cert_is_relevant cert skills_required
  = existsb (fun skill => Spec.contains_ci skill cert) skills_required.
Proof.
  induction skills_required as [| s l IH]; [reflexivity |].
  simpl. unfold Spec.contains_ci at 1.
  destruct (isin (lower s) (lower cert)); [reflexivity | exact IH].
Qed.

Lemma count_relevant_certs_count (certs skills_required : list string) (n : Z) :
  count_relevant_certs certs skills_required n
  = (n + Spec.count (fun cert =>
            existsb (fun skill => Spec.contains_ci skill cert) skills_required)
         certs)%Z.
Proof.
  revert n. induction certs as [| cert l IH]; intros n.
  - unfold Spec.count. simpl. lia.
  - simpl count_relevant_certs. rewrite IH, count_cons, cert_is_relevant_existsb.
    destruct (existsb _ skills_required); lia.
Qed.

(** The score and the details of [_calculate_qualification_score], given
    the similarity the lexical unit returned. *)
Lemma qualification_score_given (tfidf : string -> string -> outcome Q)
  (cv : CVData.t) (job : JobPosting.t) (sim : Q) :
  _calculate_skill_similarity tfidf (CVData.skills cv)
    (JobPosting.skills_required job) = Returned sim ->
  exists score d,
    _calculate_qualification_score tfidf cv job = Returned (score, d)
    /\ score == Spec.qualification sim cv job
    /\ QualDetails.skill_similarity d = sim
    /\ QualDetails.experience_match d
       = Spec.experienceMatch (CVData.experience_years cv)
           (JobPosting.experience_required job)
    /\ QualDetails.education_bonus d * 100
       == Spec.educationBonus (CVData.education cv)
    /\ QualDetails.certification_bonus d * 100
       == Spec.certificationBonus (CVData.certifications cv)
            (JobPosting.skills_required job)
    /\ QualDetails.base_score d
       == (sim * 0.6 + QualDetails.experience_match d * 0.4) * 100.
Proof.
  intros Hsim. unfold _calculate_qualification_score. rewrite Hsim.
  cbn [bind]. eexists. eexists. split; [reflexivity |].
  cbn [QualDetails.skill_similarity QualDetails.experience_match
       QualDetails.education_bonus QualDetails.certification_bonus
       QualDetails.base_score].
  rewrite education_flag_spec, count_relevant_certs_count, Z.add_0_l.
  rewrite experience_match_spec.
  unfold Spec.qualification, Spec.educationBonus, Spec.certificationBonus.
  set (n := Spec.count _ (CVData.certifications cv)).
  assert (Hn : truthy_list (CVData.certifications cv) = false -> inject_Z n == 0).
  { subst n. destruct (CVData.certifications cv); [reflexivity | discriminate]. }
  generalize dependent (inject_Z n). intros z Hz.
  set (x := Spec.experienceMatch _ _).
  destruct (existsb _ (CVData.education cv));
    destruct (truthy_list (CVData.certifications cv));
    try (specialize (Hz eq_refl));
    repeat split; try reflexivity; qsolve.
Qed.

(** Claim C4. The qualification score is
    min(100, base + educationBonus + certificationBonus) with
    base = (skillSimilarity * 0.6 + experienceMatch * 0.4) * 100, where
    skillSimilarity is what the lexical unit returns, experienceMatch is
    the staircase (1.0 if required years is 0 or candidate years >=
    required years, else 0.8, 0.6, 0.4 at 80%, 60%, 40% of the required
    years, else 0.2), educationBonus is 10 iff an education entry contains
    bachelor, master, phd or degree in any letter case, and
    certificationBonus is min(10, 5 * number of certifications that
    contain a required skill in any letter case). *)
Theorem qualification_score_formula (tfidf : string -> string -> outcome Q)
  (cv : CVData.t) (job : JobPosting.t) :
  exists sim score d,
    _calculate_skill_similarity tfidf (CVData.skills cv)
      (JobPosting.skills_required job) = Returned sim
    /\ _calculate_qualification_score tfidf cv job = Returned (score, d)
    /\ score
       == Qmin 100
            ((sim * 0.6
              + Spec.experienceMatch (CVData.experience_years cv)
                  (JobPosting.experience_required job) * 0.4) * 100
             + Spec.educationBonus (CVData.education cv)
             + Spec.certificationBonus (CVData.certifications cv)
                 (JobPosting.skills_required job))
    /\ QualDetails.skill_similarity d = sim
    /\ QualDetails.experience_match d
       = Spec.experienceMatch (CVData.experience_years cv)
           (JobPosting.experience_required job)
    /\ QualDetails.education_bonus d * 100
       == Spec.educationBonus (CVData.education cv)
    /\ QualDetails.certification_bonus d * 100
       == Spec.certificationBonus (CVData.certifications cv)
            (JobPosting.skills_required job).
Proof.
  destruct (skill_similarity_returns tfidf (CVData.skills cv)
              (JobPosting.skills_required job)) as (sim & Hsim & _).
  destruct (qualification_score_given tfidf cv job sim Hsim)
    as (score & d & Hq & Hs & H1 & H2 & H3 & H4 & _).
  exists sim, score, d. unfold Spec.qualification in Hs. tauto.
Qed.

(* ------------------------------------------------------------------ *)
(** ** Competition scorer *)

Lemma add_unique_skills_count (skills : list string) (acc : Q) :
  add_unique_skills skills acc
  == acc + 5 * inject_Z (Spec.count (fun skill =>
             existsb (fun k => Spec.contains_ci k skill)
               ["ai"; "machine learning"; "blockchain"; "quantum";
                "cloud architecture"]%string) skills).
Proof.
  revert acc. induction skills as [| skill l IH]; intros acc.
  - change (Spec.count _ []) with 0%Z. change (inject_Z 0) with 0.
    cbn [add_unique_skills]. lra.
  - cbn [add_unique_skills]. rewrite IH, count_cons.
    change (any (fun spec => isin spec (lower skill)) specialized_skills)
      with (existsb (fun k => Spec.contains_ci k skill)
              ["ai"; "machine learning"; "blockchain"; "quantum";
               "cloud architecture"]%string).
    destruct (existsb _ _); rewrite inject_Z_plus;
      [change (inject_Z 1) with 1 | change (inject_Z 0) with 0]; lra.
Qed.

Lemma scan_industries_existsb (job_industry : string) (cv_industries : list string) :
  scan_industries job_industry cv_industries
  = if existsb (fun c => Spec.contains_ci job_industry c
                         || Spec.contains_ci c job_industry) cv_industries
    then 15 else 0.
Proof.
  induction cv_industries as [| c l IH]; [reflexivity |].
  simpl. unfold Spec.contains_ci at 1 2.
  destruct (isin _ _ || isin _ _); [reflexivity | exact IH].
Qed.

Lemma scan_titles_spec (titles : list string) :
  scan_titles titles = Spec.leadershipBonus titles.
Proof.
  unfold Spec.leadershipBonus.
  set (P := fun title : string =>
              existsb (fun k => Spec.contains_ci k title)
                ["lead"; "manager"; "director"; "senior"; "principal";
                 "architect"]%string).
  induction titles as [| title l IH]; [reflexivity |].
  cbn [scan_titles]. rewrite IH.
  change (existsb P (title :: l)) with (P title || existsb P l).
  change (any (fun keyword => isin keyword (lower title)) leadership_keywords)
    with (P title).
  destruct (P title); reflexivity.
Qed.

Lemma industry_bonus_spec (cv : CVData.t) (job : JobPosting.t) :
  CompDetails.industry_experience_bonus (snd (_calculate_competition_score cv job))
  = Spec.industryBonus_nonempty (JobPosting.industry job) (CVData.industries cv).
Proof.
  unfold _calculate_competition_score, Spec.industryBonus_nonempty. simpl.
  destruct (JobPosting.industry job) as [j |]; [| reflexivity].
  rewrite scan_industries_existsb.
  destruct (truthy_str j); [| reflexivity].
  destruct (CVData.industries cv); reflexivity.
Qed.

Lemma competition_score_spec (cv : CVData.t) (job : JobPosting.t) :
  fst (_calculate_competition_score cv job) == Spec.competition_nonempty cv job.
Proof.
  pose proof (industry_bonus_spec cv job) as Hi.
  unfold _calculate_competition_score in *. cbn [fst snd] in *.
  cbn [CompDetails.industry_experience_bonus] in Hi. rewrite Hi.
  unfold Spec.competition_nonempty, Spec.competition_with.
  rewrite py_clamp, scan_titles_spec.
  pose proof (add_unique_skills_count (CVData.skills cv) 0) as Hu.
  unfold Spec.uniqueSkillsBonus, Spec.overqualificationPenalty.
  set (u := add_unique_skills _ _) in *.
  set (n := inject_Z (Spec.count _ _)) in *.
  set (d := inject_Z (_ - _)).
  set (j := inject_Z (JobPosting.experience_required job)).
  set (c := inject_Z (CVData.experience_years cv)).
  set (b := Spec.industryBonus_nonempty _ _).
  set (l := Spec.leadershipBonus _).
  clearbody u n d j c b l.
  destruct (Qltb_spec (j * 1.5) c), (Qle_bool_spec c (1.5 * j));
    try (exfalso; lra); qsolve.
Qed.

Lemma industry_bonus_worded (jobIndustry : option string) (industries : list string) :
  jobIndustry <> Some ""%string ->
  Spec.industryBonus_nonempty jobIndustry industries
  = Spec.industryBonus jobIndustry industries.
Proof.
  intros H. destruct jobIndustry as [[| ch j] |]; try reflexivity.
  contradiction.
Qed.

(** Claim C5, as the code has it. The competition score is
    clamp(50 - overqualificationPenalty + uniqueSkillsBonus + industryBonus
    + leadershipBonus, 0, 100) with the penalty min(20, 2 * (candidateYears
    - requiredYears)) applied only when candidateYears > 1.5 *
    requiredYears, uniqueSkillsBonus = min(20, 5 * number of candidate
    skills containing a specialised keyword), leadershipBonus = 10 iff a
    title contains a leadership keyword, and industryBonus = 15 iff the job
    industry is present, is not the empty string, and it and some candidate
    industry contain one another in any letter case. For every posting
    whose industry is not the empty string this is the worded formula. *)
Theorem competition_score_formula (cv : CVData.t) (job : JobPosting.t) :
  fst (_calculate_competition_score cv job)
  == Spec.clamp
       (50
        - Spec.overqualificationPenalty (CVData.experience_years cv)
            (JobPosting.experience_required job)
        + Spec.uniqueSkillsBonus (CVData.skills cv)
        + Spec.industryBonus_nonempty (JobPosting.industry job) (CVData.industries cv)
        + Spec.leadershipBonus (CVData.job_titles cv))
       0 100
  /\ CompDetails.industry_experience_bonus (snd (_calculate_competition_score cv job))
     = Spec.industryBonus_nonempty (JobPosting.industry job) (CVData.industries cv)
  /\ (JobPosting.industry job <> Some ""%string ->
      fst (_calculate_competition_score cv job) == Spec.competition cv job).
Proof.
  split; [exact (competition_score_spec cv job) |].
  split; [exact (industry_bonus_spec cv job) |].
  intros H. rewrite competition_score_spec.
  unfold Spec.competition_nonempty, Spec.competition, Spec.competition_with.
  rewrite (industry_bonus_worded _ _ H). reflexivity.
Qed.

(** The worded formula on a fintech candidate and a fintech posting: the
    industry bonus is granted, the score is 75. *)
Lemma competition_score_formula_witness :
  fst (_calculate_competition_score Samples.cv_senior Samples.job_fintech)
  == Spec.competition Samples.cv_senior Samples.job_fintech.
Proof.
  apply (competition_score_formula Samples.cv_senior Samples.job_fintech).
  simpl. discriminate.
Defined.

(** Claim C5 as worded fails on a posting whose industry is the empty
    string: the empty string occurs in every candidate industry, so the
    worded bonus is 15 and the worded score 75, but the code skips the
    industry test for an empty industry and scores 60. *)
Lemma competition_score_blank_industry :
  fst (_calculate_competition_score Samples.cv_senior Samples.job_blank_industry) == 60
  /\ Spec.competition Samples.cv_senior Samples.job_blank_industry == 75
  /\ ~ (forall cv job,
           fst (_calculate_competition_score cv job) == Spec.competition cv job).
Proof.
  split; [reflexivity |]. split; [reflexivity |].
  intros H. specialize (H Samples.cv_senior Samples.job_blank_industry).
  vm_compute in H. discriminate H.
Qed.

(* ------------------------------------------------------------------ *)
(** ** Aggregator *)

Lemma prefix_refl (s : string) : String.prefix s s = true.
Proof.
  induction s as [| ch s IH]; [reflexivity |].
  simpl. destruct (ascii_dec ch ch); [exact IH | contradiction].
Qed.

Lemma isin_refl (s : string) : isin s s = true.
Proof. destruct s; cbn [isin]; rewrite prefix_refl; reflexivity. Qed.

(** A message occurs in every text that ends with it. *)
Lemma isin_app_r (e pre : string) : isin e (pre ++ e)%string = true.
Proof.
  induction pre as [| ch pre IH]; [apply isin_refl |].
  cbn [append isin]. rewrite IH. destruct (String.prefix _ _); reflexivity.
Qed.

Lemma in_range_iff (x : Q) : MatchScore.in_range x = true <-> 0 <= x <= 100.
Proof.
  unfold MatchScore.in_range.
  destruct (Qleb_spec 0 x), (Qleb_spec x 100); simpl; split; intros H;
    try reflexivity; try discriminate; try lra; tauto.
Qed.

Lemma validated_returns (q c s o conf : Q) :
  0 <= q <= 100 -> 0 <= c <= 100 -> 0 <= s <= 100 -> 0 <= o <= 100 ->
  0 <= conf <= 100 ->
  MatchScore.validated q c s o conf = Returned (MatchScore.mk q c s o conf).
Proof.
  intros Hq Hc Hs Ho Hconf. unfold MatchScore.validated.
  apply in_range_iff in Hq, Hc, Hs, Ho, Hconf.
  rewrite Hq, Hc, Hs, Ho, Hconf. reflexivity.
Qed.

Lemma validated_inv (q c s o conf : Q) (ms : MatchScore.t) :
  MatchScore.validated q c s o conf = Returned ms ->
  ms = MatchScore.mk q c s o conf.
Proof.
  unfold MatchScore.validated. destruct (_ && _); [| discriminate].
  intros H. injection H as <-. reflexivity.
Qed.

Lemma qualification_bounds (sim : Q) (cv : CVData.t) (job : JobPosting.t) :
  0 <= sim <= 1 -> 0 <= Spec.qualification sim cv job <= 100.
Proof.
  intros Hsim. unfold Spec.qualification.
  pose proof (experience_match_bounds (CVData.experience_years cv)
                (JobPosting.experience_required job)) as He.
  rewrite experience_match_spec in He.
  set (x := Spec.experienceMatch _ _) in *. clearbody x.
  assert (Hedu : 0 <= Spec.educationBonus (CVData.education cv))
    by (unfold Spec.educationBonus; destruct (existsb _ _); lra).
  assert (Hcert : 0 <= Spec.certificationBonus (CVData.certifications cv)
                         (JobPosting.skills_required job)).
  { unfold Spec.certificationBonus.
    match goal with |- context [Spec.count ?p ?l] =>
      pose proof (proj1 (count_bounds p l)) as Hn;
      rewrite Zle_Qle in Hn; change (inject_Z 0) with 0 in Hn;
      generalize dependent (inject_Z (Spec.count p l)) end.
    intros z Hz. qsolve. }
  set (e := Spec.educationBonus _) in *.
  set (k := Spec.certificationBonus _ _) in *. clearbody e k.
  qsolve.
Qed.

Lemma competition_bounds (cv : CVData.t) (job : JobPosting.t) :
  0 <= fst (_calculate_competition_score cv job) <= 100.
Proof.
  unfold _calculate_competition_score. cbn [fst].
  apply py_clamp_bounds. lra.
Qed.

Lemma strategic_bounds (cv : CVData.t) (job : JobPosting.t) (a : AnalysisData.t) :
  0 <= fst (_calculate_strategic_score cv job a) <= 100.
Proof.
  pose proof (strategic_score_unfold cv job a) as H.
  destruct (_calculate_strategic_score cv job a) as [score d].
  destruct H as [-> _]. cbn [fst]. apply py_clamp_bounds. lra.
Qed.


(** [analyze_job_match] step by step: the qualification scorer returns, and
    what is left is the validation of the five scores it assembles. *)
Lemma analyze_job_match_unfold (tfidf : string -> string -> outcome Q)
  (chain : ChainInputs.t -> outcome AnalysisData.t)
  (cv : CVData.t) (job : JobPosting.t) :
  let a := analysis_or_degraded (chain (chain_inputs cv job)) in
  let c := fst (_calculate_competition_score cv job) in
  let s := fst (_calculate_strategic_score cv job a) in
  exists q qd,
    _calculate_qualification_score tfidf cv job = Returned (q, qd)
    /\ ((forall x y v, tfidf x y = Returned v -> 0 <= v <= 1) -> 0 <= q <= 100)
    /\ analyze_job_match tfidf chain cv job
       = bind (MatchScore.validated q c s (q * 0.6 + c * 0.25 + s * 0.15)
                 (_calculate_confidence q c s a))
           (fun ms =>
              Returned
                (JobAnalysis.mk
                   ("analysis_" ++ CVData.id cv ++ "_" ++ JobPosting.id job ++ "_"
                    ++ str_of_int (int (q * 0.6 + c * 0.25 + s * 0.15)))%string
                   (CVData.id cv) (JobPosting.id job) ms
                   (_determine_recommendation (q * 0.6 + c * 0.25 + s * 0.15)
                      (_calculate_confidence q c s a) q)
                   (AnalysisData.get (AnalysisData.reasoning a)
                      "No reasoning provided"%string)
                   (AnalysisData.get (AnalysisData.key_matches a) [])
                   (AnalysisData.get (AnalysisData.gaps a) [])
                   (Metadata.mk qd (snd (_calculate_competition_score cv job))
                      (snd (_calculate_strategic_score cv job a)) a))).
Proof.
  intros a c s.
  destruct (skill_similarity_returns tfidf (CVData.skills cv)
              (JobPosting.skills_required job)) as (sim & Hsim & Hb).
  destruct (qualification_score_given tfidf cv job sim Hsim)
    as (q & qd & Hq & Hs & _).
  exists q, qd. split; [exact Hq |]. split.
  - intros Hrange. rewrite Hs. apply qualification_bounds, Hb, Hrange.
  - unfold analyze_job_match. rewrite Hq. cbn [bind]. fold a.
    subst c s.
    destruct (_calculate_competition_score cv job) as [c cd].
    destruct (_calculate_strategic_score cv job a) as [s sd].
    reflexivity.
Qed.

Lemma overall_bounds (q c s : Q) :
  0 <= q <= 100 -> 0 <= c <= 100 -> 0 <= s <= 100 ->
  0 <= q * 0.6 + c * 0.25 + s * 0.15 <= 100.
Proof. intros. lra. Qed.

Lemma confidence_in_range (q c s : Q) (a : AnalysisData.t) :
  0 <= _calculate_confidence q c s a <= 100.
Proof.
  pose proof (spec_clamp_bounds (Spec.raw_confidence q c s a) 20 95) as H.
  rewrite calculate_confidence_spec. unfold Spec.confidence. lra.
Qed.

(** Provided the cosine of scikit-learn lies in [0, 1], the analysis is
    returned: no scorer raises and the five scores pass the validation. *)
Lemma analyze_job_match_returns (tfidf : string -> string -> outcome Q)
  (chain : ChainInputs.t -> outcome AnalysisData.t)
  (cv : CVData.t) (job : JobPosting.t) :
  (forall x y v, tfidf x y = Returned v -> 0 <= v <= 1) ->
  let a := analysis_or_degraded (chain (chain_inputs cv job)) in
  let c := fst (_calculate_competition_score cv job) in
  let s := fst (_calculate_strategic_score cv job a) in
  exists q qd ja,
    _calculate_qualification_score tfidf cv job = Returned (q, qd)
    /\ analyze_job_match tfidf chain cv job = Returned ja
    /\ JobAnalysis.match_score ja
       = MatchScore.mk q c s (q * 0.6 + c * 0.25 + s * 0.15)
           (_calculate_confidence q c s a)
    /\ JobAnalysis.reasoning ja
       = AnalysisData.get (AnalysisData.reasoning a) "No reasoning provided"%string
    /\ JobAnalysis.key_matches ja = AnalysisData.get (AnalysisData.key_matches a) []
    /\ JobAnalysis.gaps ja = AnalysisData.get (AnalysisData.gaps a) []
    /\ JobAnalysis.recommendation ja
       = _determine_recommendation (q * 0.6 + c * 0.25 + s * 0.15)
           (_calculate_confidence q c s a) q.
Proof.
  intros Hrange a c s.
  destruct (analyze_job_match_unfold tfidf chain cv job) as (q & qd & Hq & Hb & Ha).
  fold a c s in Ha. specialize (Hb Hrange).
  rewrite validated_returns in Ha;
    [ | exact Hb | apply competition_bounds | apply strategic_bounds
      | apply overall_bounds;
        [exact Hb | apply competition_bounds | apply strategic_bounds]
      | apply confidence_in_range ].
  cbn [bind] in Ha.
  eexists q, qd, _. split; [exact Hq |]. split; [exact Ha |].
  repeat split.
Qed.

(** Claim C1. Whenever [analyze_job_match] assembles a MatchScore, its
    overall_score is 0.6 * qualification_score + 0.25 * competition_score
    + 0.15 * strategic_score of the same MatchScore, these three being the
    outputs of the three scorers: the overall score is computed from them.
    Provided the cosine of scikit-learn lies in [0, 1], a MatchScore is
    assembled for every CV and job posting. *)
Theorem overall_score_weighted_sum (tfidf : string -> string -> outcome Q)
  (chain : ChainInputs.t -> outcome AnalysisData.t)
  (cv : CVData.t) (job : JobPosting.t) :
  (forall ja,
      analyze_job_match tfidf chain cv job = Returned ja ->
      let ms := JobAnalysis.match_score ja in
      MatchScore.overall_score ms
      == 0.6 * MatchScore.qualification_score ms
         + 0.25 * MatchScore.competition_score ms
         + 0.15 * MatchScore.strategic_score ms
      /\ (exists qd,
             _calculate_qualification_score tfidf cv job
             = Returned (MatchScore.qualification_score ms, qd))
      /\ MatchScore.competition_score ms = fst (_calculate_competition_score cv job)
      /\ MatchScore.strategic_score ms
         = fst (_calculate_strategic_score cv job
                  (analysis_or_degraded (chain (chain_inputs cv job)))))
  /\ ((forall x y v, tfidf x y = Returned v -> 0 <= v <= 1) ->
      exists ja, analyze_job_match tfidf chain cv job = Returned ja).
Proof.
  split.
  - intros ja Hja.
    destruct (analyze_job_match_unfold tfidf chain cv job) as (q & qd & Hq & _ & Ha).
    rewrite Ha in Hja. clear Ha.
    destruct (MatchScore.validated _ _ _ _ _) as [ms | e] eqn:Hv;
      [| discriminate Hja].
    apply validated_inv in Hv. cbn [bind] in Hja.
    apply Returned_inj in Hja. subst ja.
    cbn [JobAnalysis.match_score]. subst ms.
    cbn [MatchScore.overall_score MatchScore.qualification_score
         MatchScore.competition_score MatchScore.strategic_score].
    split; [lra |]. split; [exists qd; exact Hq |]. split; reflexivity.
  - intros Hrange.
    destruct (analyze_job_match_returns tfidf chain cv job Hrange)
      as (q & qd & ja & _ & Hja & _).
    exists ja. exact Hja.
Qed.

Lemma orthogonal_tfidf_range (x y : string) (v : Q) :
  Samples.orthogonal_tfidf x y = Returned v -> 0 <= v <= 1.
Proof. intros H. apply Returned_inj in H. subst v. lra. Qed.

Lemma overall_score_weighted_sum_witness :
  exists ja,
    analyze_job_match Samples.orthogonal_tfidf Samples.failing_chain
      Samples.cv_senior Samples.job_fintech = Returned ja
    /\ MatchScore.overall_score (JobAnalysis.match_score ja)
       == 0.6 * MatchScore.qualification_score (JobAnalysis.match_score ja)
          + 0.25 * MatchScore.competition_score (JobAnalysis.match_score ja)
          + 0.15 * MatchScore.strategic_score (JobAnalysis.match_score ja).
Proof.
  destruct (proj2 (overall_score_weighted_sum Samples.orthogonal_tfidf
                     Samples.failing_chain Samples.cv_senior Samples.job_fintech)
              orthogonal_tfidf_range) as [ja Hja].
  exists ja. split; [exact Hja |].
  apply (proj1 (overall_score_weighted_sum Samples.orthogonal_tfidf
                  Samples.failing_chain Samples.cv_senior Samples.job_fintech)
           ja Hja).
Defined.

(** Claim C3. When the semantic-analysis call raises, the exception does
    not reach the caller: [analyze_job_match] returns a complete
    JobAnalysis with empty key_matches and gaps and a reasoning that holds
    the message of the exception, and its five scores come from the
    rule-based scorers: the three dimension scores are those the scorers
    return (the strategic one whatever analysis it is handed), the overall
    score is their weighted sum, and the confidence is the clamped base 70
    with the qualification and spread adjustments only. The cosine of
    scikit-learn is assumed to lie in [0, 1]. *)
Theorem adapter_failure_is_recovered (tfidf : string -> string -> outcome Q)
  (chain : ChainInputs.t -> outcome AnalysisData.t)
  (cv : CVData.t) (job : JobPosting.t) (e : string) :
  (forall x y v, tfidf x y = Returned v -> 0 <= v <= 1) ->
  chain (chain_inputs cv job) = Raised e ->
  exists q qd ja,
    _calculate_qualification_score tfidf cv job = Returned (q, qd)
    /\ analyze_job_match tfidf chain cv job = Returned ja
    /\ JobAnalysis.key_matches ja = []
    /\ JobAnalysis.gaps ja = []
    /\ JobAnalysis.reasoning ja = ("Analysis failed due to error: " ++ e)%string
    /\ isin e (JobAnalysis.reasoning ja) = true
    /\ MatchScore.qualification_score (JobAnalysis.match_score ja) = q
    /\ MatchScore.competition_score (JobAnalysis.match_score ja)
       = fst (_calculate_competition_score cv job)
    /\ (forall a,
           MatchScore.strategic_score (JobAnalysis.match_score ja)
           = fst (_calculate_strategic_score cv job a))
    /\ MatchScore.overall_score (JobAnalysis.match_score ja)
       = q * 0.6
         + MatchScore.competition_score (JobAnalysis.match_score ja) * 0.25
         + MatchScore.strategic_score (JobAnalysis.match_score ja) * 0.15
    /\ MatchScore.confidence (JobAnalysis.match_score ja)
       == Spec.clamp
            (70 + Spec.qualification_adjustment q
             + Spec.spread_adjustment q
                 (MatchScore.competition_score (JobAnalysis.match_score ja))
                 (MatchScore.strategic_score (JobAnalysis.match_score ja)))
            20 95.
Proof.
  intros Hrange He.
  destruct (analyze_job_match_returns tfidf chain cv job Hrange)
    as (q & qd & ja & Hq & Hja & Hms & Hr & Hk & Hg & _).
  rewrite He in Hms, Hr, Hk, Hg. cbn [analysis_or_degraded] in Hms, Hr, Hk, Hg.
  exists q, qd, ja. rewrite Hms, Hr, Hk, Hg.
  cbn [MatchScore.qualification_score MatchScore.competition_score
       MatchScore.strategic_score MatchScore.overall_score MatchScore.confidence
       degraded_analysis AnalysisData.reasoning AnalysisData.key_matches
       AnalysisData.gaps AnalysisData.get].
  do 8 (split; [first [exact Hq | exact Hja | reflexivity | apply isin_app_r] |]).
  split; [intros a; reflexivity |]. split; [reflexivity |].
  rewrite calculate_confidence_spec.
  unfold Spec.confidence, Spec.raw_confidence.
  change (Spec.matches_adjustment (degraded_analysis e)) with 0.
  change (Spec.gaps_adjustment (degraded_analysis e)) with 0.
  set (x := Spec.qualification_adjustment q).
  set (y := Spec.spread_adjustment _ _ _). clearbody x y. qsolve.
Qed.

Lemma adapter_failure_is_recovered_witness :
  exists ja,
    analyze_job_match Samples.orthogonal_tfidf Samples.failing_chain
      Samples.cv_senior Samples.job_fintech = Returned ja
    /\ JobAnalysis.key_matches ja = []
    /\ JobAnalysis.gaps ja = []
    /\ isin "Request timed out" (JobAnalysis.reasoning ja) = true.
Proof.
  destruct (adapter_failure_is_recovered Samples.orthogonal_tfidf
              Samples.failing_chain Samples.cv_senior Samples.job_fintech
              "Request timed out" orthogonal_tfidf_range eq_refl)
    as (q & qd & ja & _ & Hja & Hk & Hg & _ & Hr & _).
  exists ja. repeat split; assumption.
Defined.

(* ------------------------------------------------------------------ *)
(** ** The scorers on the sample records *)

Example experience_match_staircase :
  _calculate_experience_match 6 5 = 1
  /\ _calculate_experience_match 4 5 = 0.8
  /\ _calculate_experience_match 3 5 = 0.6
  /\ _calculate_experience_match 2 5 = 0.4
  /\ _calculate_experience_match 1 8 = 0.2
  /\ _calculate_experience_match 0 0 = 1.
Proof. repeat split. Qed.

Example basic_skill_match_half :
  _basic_skill_match ["Python"; "AWS"; "Docker"]%string
    ["python"; "kubernetes"]%string
  = Returned (inject_Z 1 / inject_Z 2).
Proof. reflexivity. Qed.

Example skill_similarity_empty :
  _calculate_skill_similarity Samples.failing_tfidf [] ["python"]%string = Returned 0
  /\ _calculate_skill_similarity Samples.failing_tfidf ["python"]%string [] = Returned 0.
Proof. split; reflexivity. Qed.

Example competition_senior_fintech :
  fst (_calculate_competition_score Samples.cv_senior Samples.job_fintech) == 75.
Proof. reflexivity. Qed.

Example strategic_senior_fintech :
  fst (_calculate_strategic_score Samples.cv_senior Samples.job_fintech
         Samples.empty_analysis) == 71.
Proof. reflexivity. Qed.

Example confidence_high_spread :
  _calculate_confidence 100 0 0 Samples.empty_analysis == 75.
Proof. reflexivity. Qed.

Example analyze_senior_fintech :
  match analyze_job_match Samples.orthogonal_tfidf Samples.failing_chain
          Samples.cv_senior Samples.job_fintech with
  | Returned ja =>
      JobAnalysis.id ja = "analysis_cv1_job1_59"%string
      /\ JobAnalysis.recommendation ja = MAYBE
      /\ MatchScore.qualification_score (JobAnalysis.match_score ja) == 50
      /\ MatchScore.overall_score (JobAnalysis.match_score ja) == 59.4
      /\ MatchScore.confidence (JobAnalysis.match_score ja) == 70
      /\ JobAnalysis.reasoning ja
         = "Analysis failed due to error: Request timed out"%string
  | Raised _ => False
  end.
Proof. vm_compute. repeat split. Qed.

Example analyze_junior_fintech :
  match analyze_job_match Samples.orthogonal_tfidf Samples.failing_chain
          Samples.cv_junior Samples.job_fintech with
  | Returned ja =>
      JobAnalysis.recommendation ja = SKIP
      /\ MatchScore.qualification_score (JobAnalysis.match_score ja) == 8
  | Raised _ => False
  end.
Proof. vm_compute. repeat split. Qed.

(* ------------------------------------------------------------------ *)
(** ** Further properties of the recommendation rule *)

(** X1. The recommendation never gets worse when the overall score, the
    confidence and the qualification score all rise or stay: with
    Skip < Maybe < Apply, [_determine_recommendation] is monotone in its
    three arguments. *)
Theorem determine_recommendation_monotone (o c q o' c' q' : Q) :
  o <= o' -> c <= c' -> q <= q' ->
  (Order.rank (_determine_recommendation o c q)
   <= Order.rank (_determine_recommendation o' c' q'))%Z.
Proof.
  intros Ho Hc Hq.
  pose proof (determine_recommendation_cases o c q) as H.
  pose proof (determine_recommendation_cases o' c' q') as H'.
  destruct (_determine_recommendation o c q);
    destruct (_determine_recommendation o' c' q');
    simpl; try lia; exfalso;
    inversion H; inversion H'; lra.
Qed.

Lemma determine_recommendation_monotone_witness :
  (Order.rank (_determine_recommendation 50 65 40)
   <= Order.rank (_determine_recommendation 62 65 61))%Z.
Proof.
  apply determine_recommendation_monotone; lra.
Defined.

(** X2. What a recommendation tells about the scores: Apply is never given
    below an overall score of 60; Maybe is given only for an overall score
    of at least 45 with a confidence of at least 60, and only when the
    overall or the qualification score is below 60; an overall score below
    45 is always Skip, and a confidence below 60 is never Maybe. *)
Theorem determine_recommendation_thresholds (o c q : Q) :
  (_determine_recommendation o c q = APPLY -> 60 <= o)
  /\ (_determine_recommendation o c q = MAYBE ->
      45 <= o /\ 60 <= c /\ (o < 60 \/ q < 60))
  /\ (o < 45 -> _determine_recommendation o c q = SKIP)
  /\ (c < 60 -> _determine_recommendation o c q <> MAYBE)
  /\ (60 <= o -> 60 <= q -> _determine_recommendation o c q = APPLY).
Proof.
  pose proof (determine_recommendation_cases o c q) as H.
  destruct (_determine_recommendation o c q) eqn:E;
    repeat split; intros; try discriminate; try reflexivity;
    try (inversion H; lra); try (exfalso; inversion H; lra).
Qed.

Lemma determine_recommendation_thresholds_witness :
  _determine_recommendation 44 95 100 = SKIP
  /\ _determine_recommendation 60 20 60 = APPLY.
Proof.
  split.
  - apply (determine_recommendation_thresholds 44 95 100). lra.
  - apply (determine_recommendation_thresholds 60 20 60); lra.
Defined.

(* ------------------------------------------------------------------ *)
(** ** Further properties of the qualification scorer *)

(** X3. More experience never lowers the experience match, whatever the
    posting asks for; and for postings asking for a non-negative number of
    years, asking for more never raises it. *)
Theorem experience_match_monotone (cv cv' job job' : Z) :
  ((cv <= cv')%Z ->
   _calculate_experience_match cv job <= _calculate_experience_match cv' job)
  /\ ((0 <= job <= job')%Z ->
      _calculate_experience_match cv job' <= _calculate_experience_match cv job).
Proof.
  split.
  - intros Hcv. unfold _calculate_experience_match.
    destruct (job =? 0)%Z; [lra |].
    destruct (Z.geb_spec cv job), (Z.geb_spec cv' job); try lia; try lra.
    + qcases; lra.
    + assert (Hx : inject_Z cv <= inject_Z cv') by (rewrite <- Zle_Qle; exact Hcv).
      set (x := inject_Z cv) in *. set (x' := inject_Z cv') in *.
      set (j := inject_Z job) in *. clearbody x x' j.
      qcases; lra.
  - intros [Hj Hjj]. unfold _calculate_experience_match.
    destruct (Z.eqb_spec job 0), (Z.eqb_spec job' 0); try lia; try lra.
    + destruct (cv >=? job')%Z; [lra |]. qcases; lra.
    + destruct (Z.geb_spec cv job), (Z.geb_spec cv job'); try lia; try lra.
      * qcases; lra.
      * assert (Hy : inject_Z job <= inject_Z job')
          by (rewrite <- Zle_Qle; exact Hjj).
        assert (Hy0 : 0 <= inject_Z job)
          by (change 0 with (inject_Z 0); rewrite <- Zle_Qle; exact Hj).
        set (y := inject_Z job) in *. set (y' := inject_Z job') in *.
        set (x := inject_Z cv) in *. clearbody x y y'.
        qcases; lra.
Qed.

Lemma experience_match_monotone_witness :
  _calculate_experience_match 2 5 <= _calculate_experience_match 4 5
  /\ _calculate_experience_match 4 10 <= _calculate_experience_match 4 5.
Proof.
  split.
  - apply (experience_match_monotone 2 4 5 5). lia.
  - apply (experience_match_monotone 4 4 5 10). lia.
Defined.

(** X4. With a similarity in [0, 1] the qualification score lies in
    [8, 100]: the worst experience match still contributes 8 points. A
    candidate with at least the required years scores at least 40, and a
    candidate with no education entry and no certification scores at most
    the base, 60 * similarity + 40 * experience match. *)
Theorem qualification_score_range (tfidf : string -> string -> outcome Q)
  (cv : CVData.t) (job : JobPosting.t) :
  (forall x y v, tfidf x y = Returned v -> 0 <= v <= 1) ->
  exists sim q d,
    _calculate_skill_similarity tfidf (CVData.skills cv)
      (JobPosting.skills_required job) = Returned sim
    /\ _calculate_qualification_score tfidf cv job = Returned (q, d)
    /\ 8 <= q <= 100
    /\ ((JobPosting.experience_required job <= CVData.experience_years cv)%Z ->
        40 <= q)
    /\ (CVData.education cv = [] -> CVData.certifications cv = [] ->
        q == 60 * sim
             + 40 * _calculate_experience_match (CVData.experience_years cv)
                      (JobPosting.experience_required job)).
Proof.
  intros Hrange.
  destruct (skill_similarity_returns tfidf (CVData.skills cv)
              (JobPosting.skills_required job)) as (sim & Hsim & Hb).
  specialize (Hb Hrange).
  destruct (qualification_score_given tfidf cv job sim Hsim)
    as (q & d & Hq & Hs & _).
  exists sim, q, d. split; [exact Hsim |]. split; [exact Hq |].
  pose proof (experience_match_bounds (CVData.experience_years cv)
                (JobPosting.experience_required job)) as He.
  assert (Hedu : 0 <= Spec.educationBonus (CVData.education cv))
    by (unfold Spec.educationBonus; destruct (existsb _ _); lra).
  assert (Hcert : 0 <= Spec.certificationBonus (CVData.certifications cv)
                         (JobPosting.skills_required job)).
  { unfold Spec.certificationBonus.
    match goal with |- context [Spec.count ?p ?l] =>
      pose proof (proj1 (count_bounds p l)) as Hn;
      rewrite Zle_Qle in Hn; change (inject_Z 0) with 0 in Hn;
      generalize dependent (inject_Z (Spec.count p l)) end.
    intros z Hz. qsolve. }
  unfold Spec.qualification in Hs. rewrite <- experience_match_spec in Hs.
  set (x := _calculate_experience_match _ _) in *.
  set (e := Spec.educationBonus _) in *.
  set (k := Spec.certificationBonus _ _) in *.
  split; [| split].
  - clearbody x e k. revert Hs. qminmax. intros Hs. lra.
  - intros Hyears.
    assert (Hx1 : x = 1).
    { subst x. unfold _calculate_experience_match.
      destruct (_ =? _)%Z; [reflexivity |].
      destruct (Z.geb_spec (CVData.experience_years cv)
                  (JobPosting.experience_required job)); [reflexivity | lia]. }
    rewrite Hx1 in Hs. clearbody e k. revert Hs. qminmax. intros Hs. lra.
  - intros Hedu0 Hcert0.
    assert (He0 : e == 0) by (subst e; rewrite Hedu0; reflexivity).
    assert (Hk0 : k == 0) by (subst k; rewrite Hcert0; reflexivity).
    clearbody x e k. revert Hs. qminmax. intros Hs. lra.
Qed.

Lemma qualification_score_range_witness :
  exists sim q d,
    _calculate_skill_similarity Samples.orthogonal_tfidf
      (CVData.skills Samples.cv_senior)
      (JobPosting.skills_required Samples.job_fintech) = Returned sim
    /\ _calculate_qualification_score Samples.orthogonal_tfidf
         Samples.cv_senior Samples.job_fintech = Returned (q, d)
    /\ 8 <= q <= 100
    /\ 40 <= q.
Proof.
  destruct (qualification_score_range Samples.orthogonal_tfidf
              Samples.cv_senior Samples.job_fintech orthogonal_tfidf_range)
    as (sim & q & d & Hsim & Hq & Hb & Hy & _).
  exists sim, q, d. repeat split; try assumption; try apply Hb.
  apply Hy. simpl. lia.
Defined.

(* ------------------------------------------------------------------ *)
(** ** Further properties of the competition scorer *)

Lemma overqualification_penalty_bounds (candidateYears requiredYears : Z) :
  Spec.overqualificationPenalty candidateYears requiredYears <= 20
  /\ ((0 <= requiredYears)%Z ->
      0 <= Spec.overqualificationPenalty candidateYears requiredYears)
  /\ ((0 <= requiredYears)%Z -> (candidateYears <= requiredYears)%Z ->
      Spec.overqualificationPenalty candidateYears requiredYears == 0).
Proof.
  unfold Spec.overqualificationPenalty.
  assert (Hd : inject_Z (candidateYears - requiredYears)
               == inject_Z candidateYears - inject_Z requiredYears)
    by (unfold Z.sub; rewrite inject_Z_plus, inject_Z_opp; reflexivity).
  set (d := inject_Z (candidateYears - requiredYears)) in *.
  assert (H0 : (0 <= requiredYears)%Z -> 0 <= inject_Z requiredYears)
    by (intros H; change 0 with (inject_Z 0); rewrite <- Zle_Qle; exact H).
  assert (H1 : (candidateYears <= requiredYears)%Z ->
               inject_Z candidateYears <= inject_Z requiredYears)
    by (intros H; rewrite <- Zle_Qle; exact H).
  set (c := inject_Z candidateYears) in *.
  set (r := inject_Z requiredYears) in *. clearbody c r d.
  destruct (Qle_bool_spec c (1.5 * r)); repeat split; intros;
    try specialize (H0 ltac:(assumption));
    try specialize (H1 ltac:(assumption)); qminmax; lra.
Qed.

Lemma bonus_bounds (cv : CVData.t) (job : JobPosting.t) :
  0 <= Spec.uniqueSkillsBonus (CVData.skills cv) <= 20
  /\ 0 <= Spec.industryBonus_nonempty (JobPosting.industry job)
            (CVData.industries cv) <= 15
  /\ 0 <= Spec.leadershipBonus (CVData.job_titles cv) <= 10.
Proof.
  split; [| split].
  - unfold Spec.uniqueSkillsBonus.
    match goal with |- context [Spec.count ?p ?l] =>
      pose proof (proj1 (count_bounds p l)) as Hn;
      rewrite Zle_Qle in Hn; change (inject_Z 0) with 0 in Hn;
      generalize dependent (inject_Z (Spec.count p l)) end.
    intros z Hz. qminmax. lra.
  - unfold Spec.industryBonus_nonempty.
    destruct (JobPosting.industry job); [destruct (_ && _) |]; lra.
  - unfold Spec.leadershipBonus. destruct (existsb _ _); lra.
Qed.

(** X5. The competition score is never below 30: the overqualification
    penalty is capped at 20. When the posting asks for a non-negative
    number of years the score is at most 95 and neither clamp acts: the
    score is the plain sum 50 - penalty + bonuses; and a candidate with no
    more than the required years is not penalised, so scores at least 50. *)
Theorem competition_score_range (cv : CVData.t) (job : JobPosting.t) :
  let score := fst (_calculate_competition_score cv job) in
  let plain :=
    50
    - Spec.overqualificationPenalty (CVData.experience_years cv)
        (JobPosting.experience_required job)
    + Spec.uniqueSkillsBonus (CVData.skills cv)
    + Spec.industryBonus_nonempty (JobPosting.industry job) (CVData.industries cv)
    + Spec.leadershipBonus (CVData.job_titles cv) in
  30 <= score <= 100
  /\ ((0 <= JobPosting.experience_required job)%Z ->
      score == plain /\ score <= 95)
  /\ ((0 <= JobPosting.experience_required job)%Z ->
      (CVData.experience_years cv <= JobPosting.experience_required job)%Z ->
      50 <= score).
Proof.
  intros score plain.
  pose proof (competition_score_spec cv job) as Hs. fold score in Hs.
  unfold Spec.competition_nonempty, Spec.competition_with in Hs.
  fold plain in Hs.
  destruct (overqualification_penalty_bounds (CVData.experience_years cv)
              (JobPosting.experience_required job)) as (Hp20 & Hp0 & Hpz).
  destruct (bonus_bounds cv job) as (Hu & Hi & Hl).
  subst plain.
  set (p := Spec.overqualificationPenalty _ _) in *.
  set (u := Spec.uniqueSkillsBonus _) in *.
  set (i := Spec.industryBonus_nonempty _ _) in *.
  set (l := Spec.leadershipBonus _) in *.
  clearbody score p u i l. unfold Spec.clamp in Hs.
  repeat split; intros;
    try specialize (Hp0 ltac:(assumption));
    try specialize (Hpz ltac:(assumption) ltac:(assumption));
    revert Hs; qminmax; intros Hs; lra.
Qed.

Lemma competition_score_range_witness :
  fst (_calculate_competition_score Samples.cv_junior Samples.job_fintech) <= 95
  /\ 50 <= fst (_calculate_competition_score Samples.cv_junior Samples.job_fintech).
Proof.
  split.
  - apply (competition_score_range Samples.cv_junior Samples.job_fintech).
    simpl. lia.
  - apply (competition_score_range Samples.cv_junior Samples.job_fintech);
      simpl; lia.
Defined.

(* ------------------------------------------------------------------ *)
(** ** Further properties of the aggregator *)







(** X7. Every analysis that [analyze_job_match] returns is consistent with
    itself: its recommendation is the rule applied to the overall score,
    confidence and qualification score stored in its own MatchScore, its
    identifier is built from the two record identifiers and the integer
    part of that overall score, and it names the CV and the posting it was
    computed from. It is therefore never Apply below an overall score of 60
    and always Skip below 45. *)
Theorem analysis_is_self_consistent (tfidf : string -> string -> outcome Q)
  (chain : ChainInputs.t -> outcome AnalysisData.t)
  (cv : CVData.t) (job : JobPosting.t) (ja : JobAnalysis.t) :
  analyze_job_match tfidf chain cv job = Returned ja ->
  let ms := JobAnalysis.match_score ja in
  JobAnalysis.recommendation ja
  = _determine_recommendation (MatchScore.overall_score ms)
      (MatchScore.confidence ms) (MatchScore.qualification_score ms)
  /\ JobAnalysis.id ja
     = ("analysis_" ++ CVData.id cv ++ "_" ++ JobPosting.id job ++ "_"
        ++ str_of_int (int (MatchScore.overall_score ms)))%string
  /\ JobAnalysis.cv_id ja = CVData.id cv
  /\ JobAnalysis.job_id ja = JobPosting.id job
  /\ (JobAnalysis.recommendation ja = APPLY -> 60 <= MatchScore.overall_score ms)
  /\ (MatchScore.overall_score ms < 45 -> JobAnalysis.recommendation ja = SKIP).
Proof.
  intros Hja ms.
  destruct (analyze_job_match_unfold tfidf chain cv job) as (q & qd & Hq & _ & Ha).
  rewrite Ha in Hja. clear Ha.
  destruct (MatchScore.validated _ _ _ _ _) as [ms' | e] eqn:Hv;
    [| discriminate Hja].
  apply validated_inv in Hv. cbn [bind] in Hja.
  apply Returned_inj in Hja. subst ms. subst ja.
  cbn [JobAnalysis.match_score JobAnalysis.recommendation JobAnalysis.id
       JobAnalysis.cv_id JobAnalysis.job_id]. subst ms'.
  cbn [MatchScore.overall_score MatchScore.qualification_score
       MatchScore.confidence].
  do 4 (split; [reflexivity |]).
  match goal with |- context [_determine_recommendation ?o ?c ?x] =>
    pose proof (determine_recommendation_cases o c x) as H;
    destruct (_determine_recommendation o c x) end;
    split; intros; try discriminate; try reflexivity;
    try (inversion H; lra); exfalso; inversion H; lra.
Qed.

Lemma analysis_is_self_consistent_witness :
  exists ja,
    analyze_job_match Samples.orthogonal_tfidf Samples.failing_chain
      Samples.cv_senior Samples.job_fintech = Returned ja
    /\ JobAnalysis.recommendation ja
       = _determine_recommendation
           (MatchScore.overall_score (JobAnalysis.match_score ja))
           (MatchScore.confidence (JobAnalysis.match_score ja))
           (MatchScore.qualification_score (JobAnalysis.match_score ja)).
Proof.
  eexists. split; [vm_compute; reflexivity |].
  eapply (analysis_is_self_consistent Samples.orthogonal_tfidf
            Samples.failing_chain Samples.cv_senior Samples.job_fintech).
  vm_compute. reflexivity.
Defined.

(* ------------------------------------------------------------------ *)
(** ** Further properties of the substring fallback *)

Lemma isin_empty (hay : string) : isin "" hay = true.
Proof. destruct hay; reflexivity. Qed.

Lemma count_all {A} (p : A -> bool) (l : list A) :
  (forall x, In x l -> p x = true) -> Spec.count p l = len l.
Proof.
  intros H. induction l as [| x l IH]; [reflexivity |].
  rewrite count_cons, (H x (or_introl eq_refl)), IH.
  - unfold len. cbn [List.length]. lia.
  - intros y Hy. apply H. right. exact Hy.
Qed.

Lemma fraction_one (n : Z) : (0 < n)%Z -> inject_Z n / inject_Z n == 1.
Proof.
  intros H. apply Qmult_inv_r. intros E.
  rewrite Zlt_Qlt in H. change (inject_Z 0) with 0 in H. lra.
Qed.

(** The fallback returns 1 as soon as every required skill overlaps some
    candidate skill. *)
Lemma fallback_all_overlap (cv_skills job_skills : list string) :
  job_skills <> [] ->
  (forall r, In r job_skills ->
     existsb (fun c => isin (Spec.normalise r) (Spec.normalise c)
                       || isin (Spec.normalise c) (Spec.normalise r))
       cv_skills = true) ->
  exists v, _basic_skill_match cv_skills job_skills = Returned v /\ v == 1.
Proof.
  intros Hne Hall.
  assert (Hjob : truthy_list job_skills = true)
    by (destruct job_skills; [contradiction | reflexivity]).
  rewrite basic_skill_match_fraction by exact Hjob.
  eexists. split; [reflexivity |].
  unfold Spec.fallback_fraction_trimmed.
  rewrite count_all by exact Hall.
  apply fraction_one, len_pos, Hjob.
Qed.

(** X8. When the vectorizer fails and every required skill is, letter case
    and surrounding white space apart, one of the candidate skills, the
    lexical similarity is 1. *)
Theorem skill_similarity_fallback_full_match
  (tfidf : string -> string -> outcome Q)
  (cv_skills job_skills : list string) (e : string) :
  job_skills <> [] ->
  (forall r, In r job_skills ->
     exists c, In c cv_skills /\ strip (lower c) = strip (lower r)) ->
  tfidf (join " " cv_skills) (join " " job_skills) = Raised e ->
  exists v,
    _calculate_skill_similarity tfidf cv_skills job_skills = Returned v
    /\ v == 1.
Proof.
  intros Hne Hall Ht.
  destruct (fallback_all_overlap cv_skills job_skills Hne) as (v & Hv & H1).
  - intros r Hr. destruct (Hall r Hr) as (c & Hc & E).
    apply existsb_exists. exists c. split; [exact Hc |].
    unfold Spec.normalise. rewrite E, isin_refl. reflexivity.
  - exists v. split; [| exact H1].
    unfold _calculate_skill_similarity.
    destruct job_skills as [| j js]; [contradiction |].
    destruct cv_skills as [| c cs].
    + destruct (Hall j (or_introl eq_refl)) as (c & [] & _).
    + cbn [truthy_list negb orb]. rewrite Ht. exact Hv.
Qed.

Lemma skill_similarity_fallback_full_match_witness :
  exists v,
    _calculate_skill_similarity Samples.failing_tfidf
      ["Python "; "AWS"; "Docker"]%string ["python"; " aws"]%string = Returned v
    /\ v == 1.
Proof.
  eapply (skill_similarity_fallback_full_match Samples.failing_tfidf);
    [discriminate | | reflexivity].
  intros r [<- | [<- | []]].
  - exists "Python "%string. split; [simpl; auto | reflexivity].
  - exists "AWS"%string. split; [simpl; auto | reflexivity].
Defined.

(** X9. A candidate skill that is empty or blank matches every required
    skill, because the empty string occurs in every string: when the
    vectorizer fails and the candidate lists such a skill, the lexical
    similarity is 1 whatever the posting requires. *)
Theorem skill_similarity_fallback_blank_skill
  (tfidf : string -> string -> outcome Q)
  (cv_skills job_skills : list string) (blank e : string) :
  job_skills <> [] ->
  In blank cv_skills -> strip (lower blank) = ""%string ->
  tfidf (join " " cv_skills) (join " " job_skills) = Raised e ->
  exists v,
    _calculate_skill_similarity tfidf cv_skills job_skills = Returned v
    /\ v == 1.
Proof.
  intros Hne Hin Hblank Ht.
  destruct (fallback_all_overlap cv_skills job_skills Hne) as (v & Hv & H1).
  - intros r _. apply existsb_exists. exists blank. split; [exact Hin |].
    unfold Spec.normalise. rewrite Hblank, isin_empty, orb_true_r. reflexivity.
  - exists v. split; [| exact H1].
    unfold _calculate_skill_similarity.
    destruct job_skills as [| j js]; [contradiction |].
    destruct cv_skills as [| c cs]; [destruct Hin |].
    cbn [truthy_list negb orb]. rewrite Ht. exact Hv.
Qed.

Lemma skill_similarity_fallback_blank_skill_witness :
  exists v,
    _calculate_skill_similarity Samples.failing_tfidf
      ["cooking"; " "]%string ["rust"; "haskell"]%string = Returned v
    /\ v == 1.
Proof.
  eapply (skill_similarity_fallback_blank_skill Samples.failing_tfidf
            ["cooking"; " "]%string ["rust"; "haskell"]%string " "%string);
    [discriminate | simpl; auto | reflexivity | reflexivity].
Defined.

(* ------------------------------------------------------------------ *)
(** ** Further properties of the strategic scorer *)

Lemma scan_levels_ladder (titles : list string) (job_title : string) :
  scan_levels growth_indicators 0 titles job_title 0 0
  = (Order.ladder_level (fun k => any (fun title => isin k (lower title)) titles),
     Order.ladder_level (fun k => isin k (lower job_title))).
Proof.
  unfold growth_indicators, Order.ladder_level. cbn [scan_levels].
  assert (Hempty : forall k, truthy_list titles
                             && any (fun title => isin k (lower title)) titles
                             = any (fun title => isin k (lower title)) titles)
    by (intros k; destruct titles; reflexivity).
  rewrite !Hempty.
  destruct (any (fun title => isin "senior" (lower title)) titles),
    (any (fun title => isin "lead" (lower title)) titles),
    (any (fun title => isin "principal" (lower title)) titles),
    (any (fun title => isin "manager" (lower title)) titles),
    (any (fun title => isin "director" (lower title)) titles);
    destruct (isin "senior" (lower job_title)),
      (isin "lead" (lower job_title)),
      (isin "principal" (lower job_title)),
      (isin "manager" (lower job_title)),
      (isin "director" (lower job_title)); reflexivity.
Qed.

Lemma ladder_level_bounds (holds : string -> bool) :
  (0 <= Order.ladder_level holds <= 5)%Z.
Proof.
  unfold Order.ladder_level.
  repeat match goal with |- context [if ?b then _ else _] => destruct b end; lia.
Qed.

(** X10. The two career levels of the strategic scorer are the highest
    ladder keyword (senior 1, lead 2, principal 3, manager 4, director 5)
    found in any title of the candidate, and the highest one found in the
    title of the posting; both lie in 0..5. The growth bonus is 20 when the
    posting's level is higher, 10 when the levels are equal and 0
    otherwise, so a candidate with no title gets at least 10, a candidate
    who held a director title at most 10, and a posting whose title has no
    ladder keyword never gives 20. *)
Theorem career_levels_are_highest_keywords (cv : CVData.t) (job : JobPosting.t)
  (a : AnalysisData.t) :
  let d := snd (_calculate_strategic_score cv job a) in
  let current := StratDetails.current_level d in
  let target := StratDetails.target_level d in
  let growth := StratDetails.career_growth_potential d in
  current
  = Order.ladder_level
      (fun k => existsb (fun title => Spec.contains_ci k title) (CVData.job_titles cv))
  /\ target = Order.ladder_level (fun k => Spec.contains_ci k (JobPosting.title job))
  /\ (0 <= current <= 5)%Z /\ (0 <= target <= 5)%Z
  /\ ((current < target)%Z -> growth = 20)
  /\ (current = target -> growth = 10)
  /\ ((target < current)%Z -> growth = 0)
  /\ (CVData.job_titles cv = [] -> current = 0%Z /\ 10 <= growth)
  /\ (existsb (fun title => Spec.contains_ci "director" title)
        (CVData.job_titles cv) = true -> current = 5%Z /\ growth <= 10)
  /\ (target = 0%Z -> growth <= 10).
Proof.
  intros d current target growth.
  subst d current target growth.
  unfold _calculate_strategic_score. rewrite scan_levels_ladder.
  cbn [snd StratDetails.current_level StratDetails.target_level
       StratDetails.career_growth_potential].
  change (fun k => any (fun title => isin k (lower title)) (CVData.job_titles cv))
    with (fun k => existsb (fun title => isin k (lower title)) (CVData.job_titles cv)).
  set (holds := fun k => existsb (fun title => isin k (lower title))
                           (CVData.job_titles cv)).
  set (names := fun k => isin k (lower (JobPosting.title job))).
  assert (Hc : Order.ladder_level
                 (fun k => existsb (fun title => Spec.contains_ci k title)
                             (CVData.job_titles cv))
               = Order.ladder_level holds) by reflexivity.
  assert (Ht : Order.ladder_level
                 (fun k => Spec.contains_ci k (JobPosting.title job))
               = Order.ladder_level names) by reflexivity.
  rewrite Hc, Ht.
  pose proof (ladder_level_bounds holds) as Bc.
  pose proof (ladder_level_bounds names) as Bt.
  assert (Hdir : existsb (fun title => Spec.contains_ci "director" title)
                   (CVData.job_titles cv) = true ->
                 Order.ladder_level holds = 5%Z).
  { intros H. unfold Order.ladder_level.
    change (holds "director"%string)
      with (existsb (fun title => Spec.contains_ci "director" title)
              (CVData.job_titles cv)).
    rewrite H. reflexivity. }
  assert (Hnone : CVData.job_titles cv = [] -> Order.ladder_level holds = 0%Z).
  { intros H. subst holds. rewrite H. reflexivity. }
  set (c := Order.ladder_level holds) in *.
  set (t := Order.ladder_level names) in *. clearbody c t.
  split; [reflexivity |]. split; [reflexivity |].
  split; [exact Bc |]. split; [exact Bt |].
  destruct (Z.gtb_spec t c), (Z.eqb_spec t c);
    repeat split; intros;
    try specialize (Hdir ltac:(assumption));
    try specialize (Hnone ltac:(assumption));
    try lia; try reflexivity; try lra.
Qed.

Lemma career_levels_are_highest_keywords_witness :
  StratDetails.current_level
    (snd (_calculate_strategic_score Samples.cv_junior Samples.job_director
            Samples.empty_analysis)) = 0%Z
  /\ 10 <= StratDetails.career_growth_potential
             (snd (_calculate_strategic_score Samples.cv_junior
                     Samples.job_director Samples.empty_analysis)).
Proof.
  apply (career_levels_are_highest_keywords Samples.cv_junior
           Samples.job_director Samples.empty_analysis).
  reflexivity.
Defined.

(* ------------------------------------------------------------------ *)
(** ** Further properties of the confidence estimator *)

Lemma square_nonneg (z : Q) : 0 <= z * z.
Proof. destruct (Qlt_le_dec z 0); nra. Qed.

Lemma var_three (a b c : Q) :
  var [a; b; c]
  == ((a - b) * (a - b) + (b - c) * (b - c) + (a - c) * (a - c)) / 9.
Proof.
  unfold var, mean. cbn [map fold_right].
  change (inject_Z (len [a; b; c])) with 3.
  change (inject_Z (len [_; _; _])) with 3.
  field.
Qed.

Lemma squares_far (x y : Q) :
  49 <= x \/ x <= -49 -> 3600 < x * x + y * y + (x + y) * (x + y).
Proof.
  intros H. pose proof (square_nonneg (2 * y + x)) as H1.
  assert (H2 : 0 <= (x - 49) * (x + 49)) by (destruct H; nra).
  nra.
Qed.

(** X11. The spread test of the confidence estimator in terms of the
    scores themselves: the variance of the three scores is the sum of their
    squared pairwise differences over 9, so the 10-point penalty is never
    applied when the three scores lie within 42 points of one another, and
    always applied when two of them are 49 points or more apart. *)
Theorem spread_penalty_thresholds (q c s : Q) :
  var [q; c; s]
  == ((q - c) * (q - c) + (c - s) * (c - s) + (q - s) * (q - s)) / 9
  /\ (Order.within 42 q c -> Order.within 42 c s -> Order.within 42 q s ->
      std_exceeds [q; c; s] 20 = false)
  /\ (Order.apart 49 q c \/ Order.apart 49 c s \/ Order.apart 49 q s ->
      std_exceeds [q; c; s] 20 = true).
Proof.
  pose proof (var_three q c s) as Hv.
  split; [exact Hv |].
  unfold std_exceeds, Order.within, Order.apart.
  assert (Hv' : 9 * var [q; c; s]
                == (q - c) * (q - c) + (c - s) * (c - s)
                   + ((q - c) + (c - s)) * ((q - c) + (c - s)))
    by (rewrite Hv; field).
  clear Hv.
  assert (Hz : q - s == (q - c) + (c - s)) by ring.
  set (v := var [q; c; s]) in *. clearbody v.
  remember (q - c) as x eqn:Ex. remember (c - s) as y eqn:Ey.
  remember (q - s) as z eqn:Ez.
  assert (Ex' : x == q - c) by (rewrite Ex; reflexivity).
  assert (Ey' : y == c - s) by (rewrite Ey; reflexivity).
  assert (Ez' : z == q - s) by (rewrite Ez; reflexivity).
  clear Ex Ey Ez.
  split.
  - intros Hx Hy Hxy.
    destruct (Qltb_spec (20 * 20) v) as [H | _]; [| reflexivity].
    exfalso.
    assert (Hsum : x * x + y * y + (x + y) * (x + y) <= 3600).
    { assert (Hz' : -42 <= x + y <= 42) by lra.
      destruct (Qlt_le_dec x 0), (Qlt_le_dec y 0), (Qlt_le_dec (x + y) 0); nra. }
    lra.
  - intros H.
    destruct (Qltb_spec (20 * 20) v) as [_ | Hn]; [reflexivity |].
    exfalso. apply Hn.
    assert (Hsum : 3600 < x * x + y * y + (x + y) * (x + y)).
    { destruct H as [H | [H | H]].
      - apply squares_far. lra.
      - pose proof (squares_far y x ltac:(lra)) as G. lra.
      - pose proof (squares_far (x + y) (- y) ltac:(lra)) as G.
        assert (E : (x + y) * (x + y) + - y * - y + (x + y + - y) * (x + y + - y)
                    == x * x + y * y + (x + y) * (x + y)) by ring.
        lra. }
    lra.
Qed.

Lemma spread_penalty_thresholds_witness :
  std_exceeds [70; 75; 80] 20 = false /\ std_exceeds [10; 50; 65] 20 = true.
Proof.
  split.
  - apply (spread_penalty_thresholds 70 75 80); unfold Order.within; lra.
  - apply (spread_penalty_thresholds 10 50 65). right. right.
    unfold Order.apart. lra.
Defined.

(* ------------------------------------------------------------------ *)
(** ** The output parser *)

Lemma rstrip_cons (c : ascii) (r : string) :
  rstrip (String c r)
  = match rstrip r with
    | EmptyString => if is_space c then EmptyString else String c EmptyString
    | String c' r' => String c (String c' r')
    end.
Proof. reflexivity. Qed.

Lemma rstrip_idem (s : string) : rstrip (rstrip s) = rstrip s.
Proof.
  induction s as [| c r IH]; [reflexivity |].
  rewrite (rstrip_cons c r). destruct (rstrip r) as [| c' r'] eqn:E.
  - destruct (is_space c) eqn:Ec; [reflexivity |].
    rewrite rstrip_cons. cbn [rstrip]. rewrite Ec. reflexivity.
  - rewrite rstrip_cons, IH. reflexivity.
Qed.

Lemma rstrip_head (c : ascii) (r : string) :
  is_space c = false -> exists r', rstrip (String c r) = String c r'.
Proof.
  intros Hc. cbn [rstrip]. destruct (rstrip r) as [| c' r'].
  - rewrite Hc. eexists; reflexivity.
  - eexists; reflexivity.
Qed.

Lemma lstrip_head (s : string) :
  lstrip s = EmptyString
  \/ exists c r, lstrip s = String c r /\ is_space c = false.
Proof.
  induction s as [| c r IH]; [left; reflexivity |].
  cbn [lstrip]. destruct (is_space c) eqn:Ec; [exact IH |].
  right. exists c, r. split; [reflexivity | exact Ec].
Qed.

(** [strip] leaves a stripped string alone. *)
Lemma strip_idem (s : string) : strip (strip s) = strip s.
Proof.
  unfold strip.
  destruct (lstrip_head s) as [-> | (c & r & -> & Hc)]; [reflexivity |].
  destruct (rstrip_head c r Hc) as [r' E]. rewrite E.
  cbn [lstrip]. rewrite Hc, <- E. apply rstrip_idem.
Qed.

Lemma trimmed_strip (s : string) : Order.trimmed (strip s) = true.
Proof. unfold Order.trimmed. rewrite strip_idem. apply String.eqb_refl. Qed.

Lemma step_without_section (st : MatchOutputParser.state) (raw_line : string) :
  MatchOutputParser.is_header raw_line = false ->
  MatchOutputParser.current_section st = None ->
  MatchOutputParser.step st raw_line = st.
Proof.
  unfold MatchOutputParser.is_header, MatchOutputParser.step.
  intros Hh Hc. cbn zeta in Hh.
  destruct (isin "matches:" (lower (strip raw_line))),
    (isin "strengths:" (lower (strip raw_line))),
    (isin "gaps:" (lower (strip raw_line))),
    (isin "weaknesses:" (lower (strip raw_line))); try discriminate Hh.
  cbn [orb]. rewrite Hc. destruct (_ && _); reflexivity.
Qed.

Lemma scan_without_header (lines : list string) (st : MatchOutputParser.state) :
  forallb (fun l => negb (MatchOutputParser.is_header l)) lines = true ->
  MatchOutputParser.current_section st = None ->
  MatchOutputParser.scan lines st = st.
Proof.
  unfold MatchOutputParser.scan.
  induction lines as [| l ls IH]; intros Hall Hc; [reflexivity |].
  cbn [forallb] in Hall. apply andb_true_iff in Hall. destruct Hall as [Hl Hls].
  apply negb_true_iff in Hl.
  cbn [fold_left]. rewrite (step_without_section st l Hl Hc).
  apply IH; assumption.
Qed.

(** X12. A reply that cannot be decoded as JSON and in which no line names
    a section (matches:, strengths:, gaps:, weaknesses:, in any letter
    case) is parsed to empty lists of key matches and gaps, whatever
    bullets it holds; the confidence computed from that analysis has no
    key-match bonus and no gap penalty. *)
Theorem parse_without_headers (json_loads : string -> outcome AnalysisData.t)
  (text e : string) :
  json_loads text = Raised e ->
  forallb (fun l => negb (MatchOutputParser.is_header l))
    (PyStr.split MatchOutputParser.newline text) = true ->
  let d := MatchOutputParser.parse json_loads text in
  AnalysisData.key_matches d = Some []
  /\ AnalysisData.gaps d = Some []
  /\ (forall q c s,
         _calculate_confidence q c s d
         == Spec.clamp
              (70 + Spec.qualification_adjustment q + Spec.spread_adjustment q c s)
              20 95).
Proof.
  intros Hj Hall d. subst d. unfold MatchOutputParser.parse. rewrite Hj.
  unfold MatchOutputParser._extract_fallback.
  rewrite (scan_without_header _ (MatchOutputParser.mk_state None [] [])
             Hall eq_refl).
  cbn [MatchOutputParser.key_matches MatchOutputParser.gaps
       AnalysisData.key_matches AnalysisData.gaps].
  split; [reflexivity |]. split; [reflexivity |].
  intros q c s. rewrite calculate_confidence_spec.
  unfold Spec.confidence, Spec.raw_confidence.
  match goal with |- context [Spec.matches_adjustment ?a] =>
    change (Spec.matches_adjustment a) with 0;
    change (Spec.gaps_adjustment a) with 0 end.
  set (x := Spec.qualification_adjustment q).
  set (y := Spec.spread_adjustment _ _ _). clearbody x y. qsolve.
Qed.

Lemma parse_without_headers_witness :
  AnalysisData.key_matches
    (MatchOutputParser.parse (fun _ => Raised "Expecting value")
       "The candidate is a fair match.
- knows Python
- lacks Kubernetes") = Some [].
Proof.
  apply (parse_without_headers (fun _ => Raised "Expecting value"%string)
           _ "Expecting value"%string); reflexivity.
Defined.

Lemma take_length (n : nat) (s : string) : (String.length (PyStr.take n s) <= n)%nat.
Proof.
  revert s. induction n as [| n IH]; intros [| c r]; simpl; try lia.
  specialize (IH r). lia.
Qed.

Lemma take_all (n : nat) (s : string) :
  (String.length s <= n)%nat -> PyStr.take n s = s.
Proof.
  revert s. induction n as [| n IH]; intros [| c r] H; simpl in *;
    try reflexivity; try lia.
  rewrite IH by lia. reflexivity.
Qed.

Lemma string_length_app (a b : string) :
  String.length (a ++ b) = (String.length a + String.length b)%nat.
Proof. induction a as [| c a IH]; simpl; [reflexivity | rewrite IH; reflexivity]. Qed.

Lemma prefix_app (a b : string) : String.prefix a (a ++ b) = true.
Proof.
  induction a as [| c a IH]; [destruct b; reflexivity |].
  simpl. destruct (ascii_dec c c); [exact IH | contradiction].
Qed.

Lemma split_nonempty (sep : ascii) (s : string) :
  (1 <= List.length (PyStr.split sep s))%nat.
Proof.
  induction s as [| c r IH]; simpl; [lia |].
  destruct (Ascii.eqb c sep); simpl; [lia |].
  destruct (PyStr.split sep r); simpl in *; lia.
Qed.

(** What one line does to the loop state: items stay trimmed, and items
    plus the header that opened a section never outnumber the lines read. *)
Lemma step_invariant (st : MatchOutputParser.state) (raw_line : string) (n : nat) :
  let seen (t : MatchOutputParser.state) :=
    match MatchOutputParser.current_section t with Some _ => 1%nat | None => 0%nat end in
  let items (t : MatchOutputParser.state) :=
    (List.length (MatchOutputParser.key_matches t)
     + List.length (MatchOutputParser.gaps t))%nat in
  forallb Order.trimmed (MatchOutputParser.key_matches st) = true ->
  forallb Order.trimmed (MatchOutputParser.gaps st) = true ->
  (items st + seen st <= n)%nat ->
  (MatchOutputParser.current_section st = None -> items st = 0%nat) ->
  let st' := MatchOutputParser.step st raw_line in
  forallb Order.trimmed (MatchOutputParser.key_matches st') = true
  /\ forallb Order.trimmed (MatchOutputParser.gaps st') = true
  /\ (items st' + seen st' <= S n)%nat
  /\ (MatchOutputParser.current_section st' = None -> items st' = 0%nat).
Proof.
  intros seen items Hk Hg Hn H0 st'. subst st' seen items.
  unfold MatchOutputParser.step. cbn beta in *.
  destruct (_ || _).
  { cbn. repeat split; try assumption; try discriminate.
    destruct (MatchOutputParser.current_section st); lia. }
  destruct (_ || _).
  { cbn. repeat split; try assumption; try discriminate.
    destruct (MatchOutputParser.current_section st); lia. }
  destruct (_ && _); [| repeat split; try assumption; lia].
  destruct (MatchOutputParser.current_section st) as [[|] |] eqn:Ec; cbn;
    rewrite ?Ec, ?forallb_app, ?length_app; cbn;
    rewrite ?trimmed_strip, ?Hk, ?Hg;
    repeat split; try reflexivity; try discriminate; try assumption; try lia.
Qed.

Lemma scan_invariant (lines : list string) (st : MatchOutputParser.state) (n : nat) :
  forallb Order.trimmed (MatchOutputParser.key_matches st) = true ->
  forallb Order.trimmed (MatchOutputParser.gaps st) = true ->
  (List.length (MatchOutputParser.key_matches st)
   + List.length (MatchOutputParser.gaps st)
   + match MatchOutputParser.current_section st with Some _ => 1 | None => 0 end
   <= n)%nat ->
  (MatchOutputParser.current_section st = None ->
   (List.length (MatchOutputParser.key_matches st)
    + List.length (MatchOutputParser.gaps st) = 0)%nat) ->
  let st' := MatchOutputParser.scan lines st in
  forallb Order.trimmed (MatchOutputParser.key_matches st') = true
  /\ forallb Order.trimmed (MatchOutputParser.gaps st') = true
  /\ (List.length (MatchOutputParser.key_matches st')
      + List.length (MatchOutputParser.gaps st')
      + match MatchOutputParser.current_section st' with Some _ => 1 | None => 0 end
      <= n + List.length lines)%nat
  /\ (MatchOutputParser.current_section st' = None ->
      (List.length (MatchOutputParser.key_matches st')
       + List.length (MatchOutputParser.gaps st') = 0)%nat).
Proof.
  unfold MatchOutputParser.scan.
  revert st n. induction lines as [| l ls IH]; intros st n Hk Hg Hn H0.
  - cbn [fold_left List.length]. rewrite Nat.add_0_r. tauto.
  - cbn [fold_left List.length].
    destruct (step_invariant st l n Hk Hg Hn H0) as (Hk' & Hg' & Hn' & H0').
    specialize (IH (MatchOutputParser.step st l) (S n) Hk' Hg' Hn' H0').
    replace (n + S (List.length ls))%nat with (S n + List.length ls)%nat by lia.
    exact IH.
Qed.

(** X13. Whatever the text, the fallback parser returns a record with key
    matches, gaps and reasoning present and no confidence factors; every
    key match and every gap is free of surrounding white space; together
    they are fewer than the lines of the text, since nothing is collected
    before a header line and a header line is never an item; and the
    reasoning begins with the first 500 characters of the text, is the text
    itself when that has at most 500 characters, and is never longer than
    503. *)
Theorem extract_fallback_shape (text : string) :
  let d := MatchOutputParser._extract_fallback text in
  exists km gs r,
    AnalysisData.key_matches d = Some km
    /\ AnalysisData.gaps d = Some gs
    /\ AnalysisData.reasoning d = Some r
    /\ AnalysisData.confidence_factors d = None
    /\ forallb Order.trimmed km = true
    /\ forallb Order.trimmed gs = true
    /\ (len km + len gs
        < len (PyStr.split MatchOutputParser.newline text))%Z
    /\ String.prefix (PyStr.take 500 text) r = true
    /\ ((PyStr.len text <= 500)%Z -> r = text)
    /\ (PyStr.len r <= 503)%Z.
Proof.
  intros d. subst d. unfold MatchOutputParser._extract_fallback.
  cbn [AnalysisData.key_matches AnalysisData.gaps AnalysisData.reasoning
       AnalysisData.confidence_factors].
  do 3 eexists. do 4 (split; [reflexivity |]).
  destruct (scan_invariant (PyStr.split MatchOutputParser.newline text)
              (MatchOutputParser.mk_state None [] []) 0
              eq_refl eq_refl (Nat.le_refl 0) (fun _ => eq_refl))
    as (Hk & Hg & Hn & H0).
  pose proof (split_nonempty MatchOutputParser.newline text) as Hs.
  split; [exact Hk |]. split; [exact Hg |]. split.
  - unfold len.
    destruct (MatchOutputParser.current_section _); [lia |].
    specialize (H0 eq_refl). lia.
  - unfold PyStr.len.
    pose proof (take_length 500 text) as Ht.
    destruct (Z.gtb_spec (Z.of_nat (String.length text)) 500) as [Hlong | Hshort].
    + split; [apply prefix_app |]. split; [lia |].
      rewrite string_length_app. cbn [String.length]. lia.
    + rewrite take_all by lia.
      split; [apply prefix_refl |]. split; [reflexivity | lia].
Qed.

Lemma extract_fallback_shape_witness :
  exists r,
    AnalysisData.reasoning
      (MatchOutputParser._extract_fallback "Strengths:
- Python
Gaps:
- Kubernetes") = Some r
    /\ r = "Strengths:
- Python
Gaps:
- Kubernetes"%string.
Proof.
  destruct (extract_fallback_shape "Strengths:
- Python
Gaps:
- Kubernetes") as (km & gs & r & _ & _ & Hr & _ & _ & _ & _ & _ & Hshort & _).
  exists r. split; [exact Hr |]. apply Hshort. vm_compute. discriminate.
Defined.

Example extract_fallback_sections :
  let d := MatchOutputParser._extract_fallback "Overall a good fit
- ignored, no section yet
Strengths:
- Python
  - AWS  
* not a bullet
Weaknesses:
- Kubernetes
- matches: this line is a header" in
  AnalysisData.key_matches d = Some ["Python"; "AWS"]%string
  /\ AnalysisData.gaps d = Some ["Kubernetes"]%string.
Proof. split; reflexivity. Qed.

(* ------------------------------------------------------------------ *)
(** ** Input sanitising *)

Lemma has_char_remove (class : list ascii) (c : ascii) (s : string) :
  In c class -> PyStr.has_char c (PyStr.remove_chars class s) = false.
Proof.
  intros Hc. induction s as [| d r IH]; [reflexivity |].
  cbn [PyStr.remove_chars].
  destruct (existsb (Ascii.eqb d) class) eqn:E; [exact IH |].
  cbn [PyStr.has_char]. rewrite IH, orb_false_r.
  apply Ascii.eqb_neq. intros ->.
  assert (existsb (Ascii.eqb d) class = true)
    by (apply existsb_exists; exists d; split; [exact Hc | apply Ascii.eqb_refl]).
  congruence.
Qed.

Lemma has_char_collapse (c : ascii) (b : bool) (s : string) :
  is_space c = false ->
  PyStr.has_char c (PyStr.collapse_ws b s) = PyStr.has_char c s.
Proof.
  intros Hc. revert b. induction s as [| d r IH]; intros b; [reflexivity |].
  cbn [PyStr.collapse_ws PyStr.has_char].
  destruct (is_space d) eqn:Ed.
  - assert (Hcd : Ascii.eqb c d = false)
      by (apply Ascii.eqb_neq; intros ->; congruence).
    rewrite Hcd. destruct b; cbn [PyStr.has_char orb]; rewrite ?IH; try reflexivity.
    assert (Hsp : Ascii.eqb c " " = false)
      by (apply Ascii.eqb_neq; intros ->; discriminate Hc).
    rewrite Hsp. reflexivity.
  - cbn [PyStr.has_char]. rewrite IH. reflexivity.
Qed.

Lemma single_spaced_collapse (b : bool) (s : string) :
  Order.single_spaced b (PyStr.collapse_ws b s) = true.
Proof.
  revert b. induction s as [| c r IH]; intros b; [reflexivity |].
  cbn [PyStr.collapse_ws]. destruct (is_space c) eqn:Ec.
  - destruct b; [apply IH |].
    cbn [Order.single_spaced].
    change (is_space " ") with true. cbn. apply IH.
  - cbn [Order.single_spaced]. rewrite Ec. apply IH.
Qed.

Lemma single_spaced_weaken (s : string) :
  Order.single_spaced true s = true -> Order.single_spaced false s = true.
Proof.
  destruct s as [| c r]; [reflexivity |]. cbn [Order.single_spaced].
  destruct (is_space c); [| tauto].
  rewrite !andb_true_iff. intros [[_ H] _]. discriminate H.
Qed.

(** X14. Whatever the text and the length limit, the sanitised text holds
    none of the characters < > double quote, single quote, semicolon and
    ampersand, and its white space is normalised: no tab, newline or other
    white space than the space, and never two spaces in a row. *)
Theorem sanitize_text_input_is_clean (text : string) (max_length : Z) :
  forallb (fun c => negb (PyStr.has_char c
                            (Validators.sanitize_text_input text max_length)))
    Validators.injection_chars = true
  /\ Order.single_spaced false (Validators.sanitize_text_input text max_length)
     = true.
Proof.
  unfold Validators.sanitize_text_input.
  destruct (truthy_str text); cbn [negb]; [| split; reflexivity].
  set (t := if (_ >? _)%Z then _ else _). clearbody t.
  split; [| apply single_spaced_collapse].
  apply forallb_forall. intros c Hc. apply negb_true_iff.
  rewrite has_char_collapse.
  - apply has_char_remove, Hc.
  - unfold Validators.injection_chars in Hc. cbn [In] in Hc.
    repeat destruct Hc as [<- | Hc]; try reflexivity. destruct Hc.
Qed.

Example sanitize_script_tag :
  Validators.sanitize_text_input "  <b>Applied;   via  'referral' & email</b>
next  line " 1000
  = "bApplied via referral email/b next line"%string.
Proof. reflexivity. Qed.

Lemma lstrip_length (s : string) : (String.length (lstrip s) <= String.length s)%nat.
Proof.
  induction s as [| c r IH]; [simpl; lia |].
  cbn [lstrip]. destruct (is_space c); simpl in *; lia.
Qed.

Lemma rstrip_length (s : string) : (String.length (rstrip s) <= String.length s)%nat.
Proof.
  induction s as [| c r IH]; [simpl; lia |].
  rewrite rstrip_cons. destruct (rstrip r) as [| c' r'].
  - destruct (is_space c); simpl; lia.
  - simpl in *. lia.
Qed.

Lemma strip_length (s : string) : (String.length (strip s) <= String.length s)%nat.
Proof.
  unfold strip. pose proof (rstrip_length (lstrip s)). pose proof (lstrip_length s).
  lia.
Qed.

Lemma remove_chars_length (class : list ascii) (s : string) :
  (String.length (PyStr.remove_chars class s) <= String.length s)%nat.
Proof.
  induction s as [| c r IH]; [simpl; lia |].
  cbn [PyStr.remove_chars]. destruct (existsb _ class); simpl; lia.
Qed.

Lemma collapse_ws_length (b : bool) (s : string) :
  (String.length (PyStr.collapse_ws b s) <= String.length s)%nat.
Proof.
  revert b. induction s as [| c r IH]; intros b; [simpl; lia |].
  cbn [PyStr.collapse_ws].
  destruct (is_space c), b; simpl;
    try (specialize (IH true); lia); specialize (IH false); lia.
Qed.

Lemma take_length_le (n : nat) (s : string) :
  (String.length (PyStr.take n s) <= String.length s)%nat.
Proof.
  revert s. induction n as [| n IH]; intros [| c r]; simpl; try lia.
  specialize (IH r). lia.
Qed.

(** X15. Sanitising never lengthens a text, and for a non-negative limit
    the result holds at most that many characters; the empty text stays
    empty. *)
Theorem sanitize_text_input_length (text : string) (max_length : Z) :
  (PyStr.len (Validators.sanitize_text_input text max_length) <= PyStr.len text)%Z
  /\ ((0 <= max_length)%Z ->
      (PyStr.len (Validators.sanitize_text_input text max_length) <= max_length)%Z)
  /\ Validators.sanitize_text_input EmptyString max_length = EmptyString.
Proof.
  assert (Hchain : forall t : string,
             (String.length (PyStr.collapse_ws false
                (PyStr.remove_chars Validators.injection_chars t))
              <= String.length t)%nat).
  { intros t.
    pose proof (collapse_ws_length false
                  (PyStr.remove_chars Validators.injection_chars t)).
    pose proof (remove_chars_length Validators.injection_chars t). lia. }
  pose proof (strip_length text) as Hs.
  split; [| split; [| reflexivity]].
  - unfold Validators.sanitize_text_input.
    destruct (truthy_str text); cbn [negb]; [| unfold PyStr.len; simpl; lia].
    destruct (PyStr.len (strip text) >? max_length)%Z.
    + unfold PyStr.slice_to.
      destruct (0 <=? max_length)%Z;
        match goal with |- context [PyStr.take ?n ?t] =>
          pose proof (take_length_le n t) as Ht;
          set (u := PyStr.take n t) in *; clearbody u;
          pose proof (Hchain u) end;
        unfold PyStr.len; lia.
    + pose proof (Hchain (strip text)). unfold PyStr.len. lia.
  - intros Hmax. unfold Validators.sanitize_text_input.
    destruct (truthy_str text); cbn [negb]; [| unfold PyStr.len; simpl; lia].
    destruct (Z.gtb_spec (PyStr.len (strip text)) max_length) as [Hl | Hl].
    + unfold PyStr.slice_to.
      destruct (Z.leb_spec 0 max_length); [| lia].
      pose proof (take_length (Z.to_nat max_length) (strip text)) as Ht.
      set (u := PyStr.take _ _) in *. clearbody u.
      pose proof (Hchain u). unfold PyStr.len. lia.
    + pose proof (Hchain (strip text)). unfold PyStr.len in *. lia.
Qed.

Lemma sanitize_text_input_length_witness :
  (PyStr.len (Validators.sanitize_text_input "a long note about the interview" 10)
   <= 10)%Z.
Proof.
  apply (sanitize_text_input_length "a long note about the interview" 10). lia.
Defined.

(* ------------------------------------------------------------------ *)
(** ** Success statistics *)

Lemma tally_invariant (st : Database.stats) (r : Database.row) (n : Z) :
  (0 <= Database.responses st <= Database.sent st)%Z ->
  (0 <= Database.interviews st <= Database.sent st)%Z ->
  (Database.sent st <= n)%Z ->
  let st' := Database.tally st r in
  (0 <= Database.responses st' <= Database.sent st')%Z
  /\ (0 <= Database.interviews st' <= Database.sent st')%Z
  /\ (Database.sent st' <= n + 1)%Z
  /\ Database.total_analyses st' = Database.total_analyses st
  /\ Database.success_rates st' = Database.success_rates st.
Proof.
  intros Hr Hi Hn st'. subst st'. unfold Database.tally.
  destruct (Database.truthy_flag (Database.applied r));
    cbn [Database.responses Database.sent Database.interviews
         Database.total_analyses Database.success_rates];
    [destruct (Database.truthy_flag (Database.response_received r)),
       (Database.truthy_flag (Database.interview_scheduled r)) |];
    repeat split; lia.
Qed.

Lemma fold_tally_invariant (rows : list Database.row) (st : Database.stats) (n : Z) :
  (0 <= Database.responses st <= Database.sent st)%Z ->
  (0 <= Database.interviews st <= Database.sent st)%Z ->
  (Database.sent st <= n)%Z ->
  let st' := fold_left Database.tally rows st in
  (0 <= Database.responses st' <= Database.sent st')%Z
  /\ (0 <= Database.interviews st' <= Database.sent st')%Z
  /\ (Database.sent st' <= n + len rows)%Z
  /\ Database.total_analyses st' = Database.total_analyses st
  /\ Database.success_rates st' = Database.success_rates st.
Proof.
  revert st n. induction rows as [| r rows IH]; intros st n Hr Hi Hn.
  - cbn [fold_left]. unfold len. cbn [List.length]. repeat split; lia.
  - cbn [fold_left].
    destruct (tally_invariant st r n Hr Hi Hn) as (Hr' & Hi' & Hn' & Ht' & Hs').
    destruct (IH (Database.tally st r) (n + 1)%Z Hr' Hi' Hn')
      as (Hr2 & Hi2 & Hn2 & Ht2 & Hs2).
    unfold len in *. cbn [List.length]. rewrite Nat2Z.inj_succ.
    repeat split; try lia; congruence.
Qed.

Lemma statistics_when_query_returns (rows : list Database.row) :
  exists st,
    Database.get_success_statistics (Returned rows) = Some st
    /\ Database.total_analyses st = len rows
    /\ (0 <= Database.responses st <= Database.sent st)%Z
    /\ (0 <= Database.interviews st <= Database.sent st)%Z
    /\ (Database.sent st <= Database.total_analyses st)%Z
    /\ (Database.sent st = 0%Z -> Database.success_rates st = [])
    /\ ((0 < Database.sent st)%Z ->
        exists response_rate interview_rate,
          Database.success_rates st
          = [("response_rate"%string, response_rate);
             ("interview_rate"%string, interview_rate)]
          /\ response_rate
             = inject_Z (Database.responses st) / inject_Z (Database.sent st)
          /\ interview_rate
             = inject_Z (Database.interviews st) / inject_Z (Database.sent st)
          /\ 0 <= response_rate <= 1
          /\ 0 <= interview_rate <= 1).
Proof.
  unfold Database.get_success_statistics, Database.compute_statistics.
  cbn [bind].
  set (init := Database.mk_stats _ _ _ _ _ _ _).
  destruct (fold_tally_invariant rows init 0) as (Hr & Hi & Hn & Ht & Hs);
    try (subst init; cbn; lia).
  set (st := fold_left Database.tally rows init) in *.
  change (Database.total_analyses init) with (len rows) in Ht.
  change (Database.success_rates init) with (@nil (string * Q)) in Hs.
  destruct (Z.gtb_spec (Database.sent st) 0) as [Hpos | Hzero].
  - unfold truediv.
    destruct (Z.eqb_spec (Database.sent st) 0) as [E | _]; [lia |].
    cbn [bind]. eexists. split; [reflexivity |].
    cbn [Database.total_analyses Database.responses Database.sent
         Database.interviews Database.success_rates].
    split; [exact Ht |]. split; [exact Hr |]. split; [exact Hi |].
    split; [lia |]. split; [intros E; lia |]. intros _.
    do 2 eexists. split; [reflexivity |].
    split; [reflexivity |]. split; [reflexivity |].
    split; apply fraction_bounds; lia.
  - exists st. split; [reflexivity |].
    split; [exact Ht |]. split; [exact Hr |]. split; [exact Hi |].
    split; [lia |]. split; [intros _; exact Hs |]. intros Hpos. lia.
Qed.

(** X16. When the query returns, the statistics are computed without any
    exception, division included: the totals satisfy 0 <= responses <=
    sent <= total_analyses = number of rows and 0 <= interviews <= sent;
    the success rates are left empty exactly when nothing was sent, and
    otherwise are the response rate responses / sent and the interview
    rate interviews / sent, both in [0, 1]. When the query raises, the
    result is the empty dict. *)
Theorem success_statistics_are_consistent (rows : list Database.row) :
  (forall e, Database.get_success_statistics (Raised e) = None)
  /\ exists st,
       Database.get_success_statistics (Returned rows) = Some st
       /\ Database.total_analyses st = len rows
       /\ (0 <= Database.responses st <= Database.sent st)%Z
       /\ (0 <= Database.interviews st <= Database.sent st)%Z
       /\ (Database.sent st <= Database.total_analyses st)%Z
       /\ (Database.sent st = 0%Z -> Database.success_rates st = [])
       /\ ((0 < Database.sent st)%Z ->
           exists response_rate interview_rate,
             Database.success_rates st
             = [("response_rate"%string, response_rate);
                ("interview_rate"%string, interview_rate)]
             /\ response_rate
                = inject_Z (Database.responses st) / inject_Z (Database.sent st)
             /\ interview_rate
                = inject_Z (Database.interviews st) / inject_Z (Database.sent st)
             /\ 0 <= response_rate <= 1
             /\ 0 <= interview_rate <= 1).
Proof.
  split; [reflexivity | apply statistics_when_query_returns].
Qed.

Lemma success_statistics_are_consistent_witness :
  exists st,
    Database.get_success_statistics
      (Returned
         [Database.mk_row (Some "apply"%string) (Some 1%Z) (Some 1%Z) (Some 0%Z)
            (Some "Interview"%string);
          Database.mk_row (Some "apply"%string) (Some 1%Z) (Some 0%Z) None None;
          Database.mk_row (Some "skip"%string) None None None None]) = Some st
    /\ exists response_rate interview_rate,
         Database.success_rates st
         = [("response_rate"%string, response_rate);
            ("interview_rate"%string, interview_rate)]
         /\ 0 <= response_rate <= 1.
Proof.
  destruct (proj2 (success_statistics_are_consistent
              [Database.mk_row (Some "apply"%string) (Some 1%Z) (Some 1%Z)
                 (Some 0%Z) (Some "Interview"%string);
               Database.mk_row (Some "apply"%string) (Some 1%Z) (Some 0%Z) None None;
               Database.mk_row (Some "skip"%string) None None None None]))
    as (st & Hst & _ & _ & _ & _ & _ & Hrates).
  exists st. split; [exact Hst |].
  assert (Hsent : (0 < Database.sent st)%Z).
  { vm_compute in Hst. injection Hst as <-. reflexivity. }
  destruct (Hrates Hsent) as (rr & ir & Hs & _ & _ & Hb & _).
  exists rr, ir. split; assumption.
Defined.

(** Reading a counter after a write. *)
Lemma get_set (d : Database.counter) (k k' : string) (v : Z) :
  Database.get (Database.set d k v) k'
  = if String.eqb k k' then v else Database.get d k'.
Proof.
  induction d as [| [k0 n] rest IH]; [reflexivity |].
  cbn [Database.set]. destruct (String.eqb_spec k0 k) as [-> | Hne].
  - cbn [Database.get]. destruct (String.eqb k k'); reflexivity.
  - cbn [Database.get]. rewrite IH.
    destruct (String.eqb_spec k0 k') as [-> | _]; [| reflexivity].
    destruct (String.eqb_spec k k') as [-> | _]; [contradiction | reflexivity].
Qed.

Lemma tally_recommendations (st : Database.stats) (r : Database.row) (key : string) :
  key <> EmptyString ->
  Database.get (Database.recommendations (Database.tally st r)) key
  = (Database.get (Database.recommendations st) key
     + Database.rows_recommending key [r])%Z.
Proof.
  intros Hkey. unfold Database.tally, Database.rows_recommending.
  assert (Hrec : forall c : Database.counter,
             Database.recommendations
               (if Database.truthy_flag (Database.applied r)
                then Database.mk_stats (Database.total_analyses st) c
                       (Database.sent st + 1)
                       (if Database.truthy_flag (Database.response_received r)
                        then Database.responses st + 1 else Database.responses st)
                       (if Database.truthy_flag (Database.interview_scheduled r)
                        then Database.interviews st + 1 else Database.interviews st)
                       (Database.success_rates st)
                       (match Database.outcome r with
                        | Some k =>
                            if truthy_str k
                            then Database.set (Database.outcomes st) k
                                   (Database.get (Database.outcomes st) k + 1)
                            else Database.outcomes st
                        | None => Database.outcomes st
                        end)
                else Database.mk_stats (Database.total_analyses st) c
                       (Database.sent st) (Database.responses st)
                       (Database.interviews st) (Database.success_rates st)
                       (Database.outcomes st)) = c)
    by (intros c; destruct (Database.truthy_flag _); reflexivity).
  cbn zeta. rewrite Hrec. cbn [filter].
  destruct (Database.recommendation r) as [k |]; cbn [List.length]; [| lia].
  destruct (String.eqb_spec k key) as [-> | Hne].
  - destruct key as [| ch key]; [contradiction |].
    cbn [truthy_str]. rewrite get_set, String.eqb_refl. cbn [List.length]. lia.
  - destruct (truthy_str k); cbn [List.length]; [| lia].
    rewrite get_set. destruct (String.eqb_spec k key); [contradiction | lia].
Qed.

Lemma rows_recommending_cons (key : string) (r : Database.row)
  (rows : list Database.row) :
  Database.rows_recommending key (r :: rows)
  = (Database.rows_recommending key [r] + Database.rows_recommending key rows)%Z.
Proof.
  unfold Database.rows_recommending. cbn [filter].
  destruct (match Database.recommendation r with
            | Some k => String.eqb k key | None => false end);
    cbn [List.length]; lia.
Qed.

Lemma fold_tally_recommendations (rows : list Database.row) (st : Database.stats)
  (key : string) :
  key <> EmptyString ->
  Database.get (Database.recommendations (fold_left Database.tally rows st)) key
  = (Database.get (Database.recommendations st) key
     + Database.rows_recommending key rows)%Z.
Proof.
  intros Hkey. revert st. induction rows as [| r rows IH]; intros st.
  - cbn [fold_left]. unfold Database.rows_recommending. cbn. lia.
  - cbn [fold_left]. rewrite IH, tally_recommendations by exact Hkey.
    rewrite (rows_recommending_cons key r rows). lia.
Qed.

(** X17. The recommendation counter of the statistics is exact: for every
    non-empty value, and so for apply, maybe and skip, the count reported
    is the number of rows carrying that recommendation, which is at most
    the total number of analyses. *)
Theorem recommendation_counts_are_exact (rows : list Database.row) (key : string) :
  key <> EmptyString ->
  exists st,
    Database.get_success_statistics (Returned rows) = Some st
    /\ Database.get (Database.recommendations st) key
       = Database.rows_recommending key rows
    /\ (0 <= Database.get (Database.recommendations st) key
        <= Database.total_analyses st)%Z.
Proof.
  intros Hkey.
  destruct (statistics_when_query_returns rows) as (st & Hst & Ht & _).
  exists st. split; [exact Hst |].
  assert (Hget : Database.get (Database.recommendations st) key
                 = Database.rows_recommending key rows).
  { unfold Database.get_success_statistics, Database.compute_statistics in Hst.
    cbn [bind] in Hst.
    set (init := Database.mk_stats _ _ _ _ _ _ _) in Hst.
    pose proof (fold_tally_recommendations rows init key Hkey) as Hf.
    set (folded := fold_left Database.tally rows init) in *.
    assert (Hinit : Database.get (Database.recommendations init) key = 0%Z).
    { subst init. cbn [Database.recommendations Database.get].
      repeat match goal with |- context [String.eqb ?a key] =>
        destruct (String.eqb_spec a key) as [<- | _] end;
        reflexivity. }
    rewrite Hinit, Z.add_0_l in Hf.
    destruct (Database.sent folded >? 0)%Z.
    - unfold truediv in Hst.
      destruct (Database.sent folded =? 0)%Z; [discriminate Hst |].
      cbn [bind] in Hst. injection Hst as <-. exact Hf.
    - injection Hst as <-. exact Hf. }
  split; [exact Hget |].
  rewrite Hget, Ht. unfold Database.rows_recommending, len.
  match goal with |- context [filter ?p rows] =>
    pose proof (filter_length_le p rows) end. lia.
Qed.

Lemma recommendation_counts_are_exact_witness :
  exists st,
    Database.get_success_statistics
      (Returned
         [Database.mk_row (Some "apply"%string) (Some 1%Z) (Some 1%Z) (Some 0%Z)
            (Some "Interview"%string);
          Database.mk_row (Some "apply"%string) None None None None;
          Database.mk_row (Some "skip"%string) None None None None]) = Some st
    /\ Database.get (Database.recommendations st) "apply" = 2%Z.
Proof.
  destruct (recommendation_counts_are_exact
              [Database.mk_row (Some "apply"%string) (Some 1%Z) (Some 1%Z)
                 (Some 0%Z) (Some "Interview"%string);
               Database.mk_row (Some "apply"%string) None None None None;
               Database.mk_row (Some "skip"%string) None None None None]
              "apply"%string ltac:(discriminate)) as (st & Hst & Hget & _).
  exists st. split; [exact Hst | exact Hget].
Defined.

(* ------------------------------------------------------------------ *)
(** ** How much the semantic analysis can change *)




(* ------------------------------------------------------------------ *)
(** ** Matching records whose parsing failed *)







(* ------------------------------------------------------------------ *)
(** ** The fallback parser of CV replies *)

Lemma int_of_digit_run (s : string) (acc : Z) :
  (0 <= acc)%Z ->
  (0 <= CVOutputParser.int_of_digits acc (CVOutputParser.digit_run s))%Z.
Proof.
  revert acc. induction s as [| c r IH]; intros acc Hacc; [exact Hacc |].
  cbn [CVOutputParser.digit_run].
  destruct (CVOutputParser.is_digit c) eqn:Ec; [| exact Hacc].
  cbn [CVOutputParser.int_of_digits]. apply IH.
  unfold CVOutputParser.is_digit in Ec. cbn zeta in Ec.
  apply andb_true_iff in Ec. destruct Ec as [Hlo _].
  apply N.leb_le in Hlo. lia.
Qed.

Lemma first_number_is_run (line years : string) :
  CVOutputParser.first_number line = Some years ->
  exists suffix, years = CVOutputParser.digit_run suffix.
Proof.
  induction line as [| c r IH]; [discriminate |].
  cbn [CVOutputParser.first_number].
  destruct (CVOutputParser.is_digit c).
  - intros H. apply (f_equal (fun o => match o with Some y => y | None => years end)) in H.
    exists (String c r). symmetry. exact H.
  - exact IH.
Qed.

Lemma trimmed_map_strip (l : list string) :
  forallb Order.trimmed (map strip l) = true.
Proof.
  induction l as [| x l IH]; [reflexivity |].
  cbn [map forallb]. rewrite trimmed_strip, IH. reflexivity.
Qed.

(** What one line keeps true of the result. *)
Lemma cv_step_invariant (sec : option CVOutputParser.section)
  (res : CVOutputParser.result) (raw_line : string) :
  let good (r : CVOutputParser.result) :=
    (0 <= CVOutputParser.experience_years r)%Z
    /\ forallb Order.trimmed (CVOutputParser.skills r) = true
    /\ forallb Order.trimmed (CVOutputParser.education r) = true
    /\ forallb Order.trimmed (CVOutputParser.certifications r) = true
    /\ forallb Order.trimmed (CVOutputParser.job_titles r) = true
    /\ forallb Order.trimmed (CVOutputParser.industries r) = true in
  good res -> good (snd (CVOutputParser.step (sec, res) raw_line)).
Proof.
  intros good (Hy & Hs & He & Hc & Hj & Hi). subst good.
  unfold CVOutputParser.step.
  destruct (CVOutputParser.header (strip raw_line)); [cbn; tauto |].
  destruct sec as [sec |]; [| cbn; tauto].
  destruct (truthy_str (strip raw_line)); [| cbn; tauto].
  destruct (CVOutputParser.is_experience sec && CVOutputParser.has_digit _).
  - destruct (CVOutputParser.first_number (strip raw_line)) as [years |] eqn:Ey;
      [| cbn; tauto].
    destruct (first_number_is_run _ _ Ey) as [suffix ->].
    cbn. repeat split; try assumption. apply int_of_digit_run. lia.
  - pose proof (trimmed_map_strip (PyStr.split "," (strip raw_line))) as Ht.
    destruct sec; cbn; rewrite ?forallb_app, ?Ht, ?Hs, ?He, ?Hc, ?Hj, ?Hi;
      repeat split; try reflexivity; assumption.
Qed.

Lemma cv_fold_invariant (lines : list string) (sec : option CVOutputParser.section)
  (res : CVOutputParser.result) :
  (0 <= CVOutputParser.experience_years res)%Z
  /\ forallb Order.trimmed (CVOutputParser.skills res) = true
  /\ forallb Order.trimmed (CVOutputParser.education res) = true
  /\ forallb Order.trimmed (CVOutputParser.certifications res) = true
  /\ forallb Order.trimmed (CVOutputParser.job_titles res) = true
  /\ forallb Order.trimmed (CVOutputParser.industries res) = true ->
  let res' := snd (fold_left CVOutputParser.step lines (sec, res)) in
  (0 <= CVOutputParser.experience_years res')%Z
  /\ forallb Order.trimmed (CVOutputParser.skills res') = true
  /\ forallb Order.trimmed (CVOutputParser.education res') = true
  /\ forallb Order.trimmed (CVOutputParser.certifications res') = true
  /\ forallb Order.trimmed (CVOutputParser.job_titles res') = true
  /\ forallb Order.trimmed (CVOutputParser.industries res') = true.
Proof.
  revert sec res. induction lines as [| l ls IH]; intros sec res H;
    [exact H |].
  cbn [fold_left].
  pose proof (cv_step_invariant sec res l H) as H'.
  destruct (CVOutputParser.step (sec, res) l) as [sec' res'].
  apply IH. exact H'.
Qed.

(** X21. Whatever the reply, the fallback parser of CV replies returns a
    number of years of experience that is never negative, and every skill,
    education entry, certification, job title and industry it collects is
    free of surrounding white space. *)
Theorem cv_fallback_is_well_formed (text : string) :
  let r := CVOutputParser._extract_fallback text in
  (0 <= CVOutputParser.experience_years r)%Z
  /\ forallb Order.trimmed (CVOutputParser.skills r) = true
  /\ forallb Order.trimmed (CVOutputParser.education r) = true
  /\ forallb Order.trimmed (CVOutputParser.certifications r) = true
  /\ forallb Order.trimmed (CVOutputParser.job_titles r) = true
  /\ forallb Order.trimmed (CVOutputParser.industries r) = true.
Proof.
  unfold CVOutputParser._extract_fallback.
  apply cv_fold_invariant. cbn. repeat split; lia.
Qed.

Example cv_fallback_sections :
  CVOutputParser._extract_fallback "Name: Ada
Skills:
Python,  AWS , Docker
Experience:
about 6 years, 2 of them abroad
Job Titles:
Senior Engineer"
  = CVOutputParser.mk_result ["Python"; "AWS"; "Docker"]%string 6 [] []
      ["Senior Engineer"]%string [].
Proof. reflexivity. Qed.




(* ------------------------------------------------------------------ *)
(** ** The fallback parser of job replies *)

Lemma job_step_invariant (sec : option JobOutputParser.section)
  (res : JobOutputParser.result) (raw_line : string) :
  let good (r : JobOutputParser.result) :=
    (0 <= JobOutputParser.experience_required r)%Z
    /\ JobOutputParser.job_type r = None
    /\ JobOutputParser.industry r = None
    /\ forallb Order.trimmed (JobOutputParser.requirements r) = true
    /\ forallb Order.trimmed (JobOutputParser.skills_required r) = true
    /\ forallb Order.trimmed (JobOutputParser.key_responsibilities r) = true in
  good res -> good (snd (JobOutputParser.step (sec, res) raw_line)).
Proof.
  intros good (Hy & Ht & Hi & Hr & Hs & Hk). subst good.
  unfold JobOutputParser.step.
  destruct (JobOutputParser.header (strip raw_line)); [cbn; tauto |].
  destruct sec as [sec |]; [| cbn; tauto].
  destruct (truthy_str (strip raw_line)); [| cbn; tauto].
  destruct (JobOutputParser.is_experience sec && CVOutputParser.has_digit _).
  - destruct (CVOutputParser.first_number (strip raw_line)) as [years |] eqn:Ey;
      [| cbn; tauto].
    destruct (first_number_is_run _ _ Ey) as [suffix ->].
    cbn. repeat split; try assumption. apply int_of_digit_run. lia.
  - pose proof (trimmed_map_strip (PyStr.split "," (strip raw_line))) as Hm.
    pose proof (trimmed_strip (JobOutputParser.drop_first (strip raw_line))) as Hd.
    pose proof (trimmed_strip raw_line) as Hl.
    destruct (_ || _); [| destruct (PyStr.has_char _ _)];
      destruct sec; cbn;
      rewrite ?forallb_app; cbn; rewrite ?Hm, ?Hd, ?Hl, ?Hr, ?Hs, ?Hk;
      repeat split; try reflexivity; assumption.
Qed.

Lemma job_fold_invariant (lines : list string) (sec : option JobOutputParser.section)
  (res : JobOutputParser.result) :
  (0 <= JobOutputParser.experience_required res)%Z
  /\ JobOutputParser.job_type res = None
  /\ JobOutputParser.industry res = None
  /\ forallb Order.trimmed (JobOutputParser.requirements res) = true
  /\ forallb Order.trimmed (JobOutputParser.skills_required res) = true
  /\ forallb Order.trimmed (JobOutputParser.key_responsibilities res) = true ->
  let res' := snd (fold_left JobOutputParser.step lines (sec, res)) in
  (0 <= JobOutputParser.experience_required res')%Z
  /\ JobOutputParser.job_type res' = None
  /\ JobOutputParser.industry res' = None
  /\ forallb Order.trimmed (JobOutputParser.requirements res') = true
  /\ forallb Order.trimmed (JobOutputParser.skills_required res') = true
  /\ forallb Order.trimmed (JobOutputParser.key_responsibilities res') = true.
Proof.
  revert sec res. induction lines as [| l ls IH]; intros sec res H;
    [exact H |].
  cbn [fold_left].
  pose proof (job_step_invariant sec res l H) as H'.
  destruct (JobOutputParser.step (sec, res) l) as [sec' res'].
  apply IH. exact H'.
Qed.

Lemma job_fallback_invariant (text : string) :
  let r := JobOutputParser._extract_fallback text in
  (0 <= JobOutputParser.experience_required r)%Z
  /\ JobOutputParser.job_type r = None
  /\ JobOutputParser.industry r = None
  /\ forallb Order.trimmed (JobOutputParser.requirements r) = true
  /\ forallb Order.trimmed (JobOutputParser.skills_required r) = true
  /\ forallb Order.trimmed (JobOutputParser.key_responsibilities r) = true.
Proof.
  unfold JobOutputParser._extract_fallback.
  apply job_fold_invariant. cbn. repeat split; lia.
Qed.

(** X23. Whatever the reply, the fallback parser of job replies returns a
    required experience that is never negative, leaves the job type and
    the industry unset, and collects requirements, required skills and
    responsibilities that are free of surrounding white space. *)
Theorem job_fallback_is_well_formed (text : string) :
  let r := JobOutputParser._extract_fallback text in
  (0 <= JobOutputParser.experience_required r)%Z
  /\ JobOutputParser.job_type r = None
  /\ JobOutputParser.industry r = None
  /\ forallb Order.trimmed (JobOutputParser.requirements r) = true
  /\ forallb Order.trimmed (JobOutputParser.skills_required r) = true
  /\ forallb Order.trimmed (JobOutputParser.key_responsibilities r) = true.
Proof. exact (job_fallback_invariant text). Qed.

Example job_fallback_sections :
  JobOutputParser._extract_fallback "We are hiring
Requirements:
- BSc degree
Team player
Skills:
Python, Kubernetes
Experience:
5+ years in 2 domains"
  = JobOutputParser.mk_result ["BSc degree"; "Team player"]%string
      ["Python"; "Kubernetes"]%string 5 None None [].
Proof. reflexivity. Qed.

(** X24. For a posting built from the fallback parse of a reply, whatever
    the reply and the CV, the competition scorer grants no industry bonus
    and neither of its clamps acts: the score is 50 - penalty + unique
    skills bonus + leadership bonus, between 30 and 80. *)
Theorem competition_on_fallback_posting (cv : CVData.t)
  (job_id url title company location description reply : string) :
  let job :=
    JobScraper.job_of_fallback job_id url title company location description
      (JobOutputParser._extract_fallback reply) in
  let score := fst (_calculate_competition_score cv job) in
  CompDetails.industry_experience_bonus (snd (_calculate_competition_score cv job))
  = 0
  /\ score
     == 50
        - Spec.overqualificationPenalty (CVData.experience_years cv)
            (JobPosting.experience_required job)
        + Spec.uniqueSkillsBonus (CVData.skills cv)
        + Spec.leadershipBonus (CVData.job_titles cv)
  /\ 30 <= score <= 80.
Proof.
  intros job score.
  destruct (job_fallback_invariant reply) as (Hy & _ & Hi & _).
  assert (Hind : JobPosting.industry job = None) by exact Hi.
  assert (Hyears : (0 <= JobPosting.experience_required job)%Z) by exact Hy.
  pose proof (industry_bonus_spec cv job) as Hb.
  rewrite Hind in Hb. cbn [Spec.industryBonus_nonempty] in Hb.
  split; [exact Hb |].
  pose proof (competition_score_spec cv job) as Hs. fold score in Hs.
  unfold Spec.competition_nonempty, Spec.competition_with in Hs.
  rewrite Hind in Hs. cbn [Spec.industryBonus_nonempty] in Hs.
  destruct (overqualification_penalty_bounds (CVData.experience_years cv)
              (JobPosting.experience_required job)) as (Hp20 & Hp0 & _).
  specialize (Hp0 Hyears).
  destruct (bonus_bounds cv job) as (Hu & _ & Hl).
  set (p := Spec.overqualificationPenalty _ _) in *.
  set (u := Spec.uniqueSkillsBonus _) in *.
  set (l := Spec.leadershipBonus _) in *.
  clearbody score p u l. unfold Spec.clamp in Hs.
  revert Hs. qminmax. intros Hs. split; [lra | lra].
Qed.
